(** * Bread recipes in baker's percentages

    A shallow embedding of the recipe editor ([components/RecipeView.tsx]),
    of the root component [App], which owns the recipe list and the
    per-user store, and of the acceptance test applied to the reply of the
    text-to-recipe service ([services/geminiService.ts]), followed by the
    properties the specification states about them.

    Modelling conventions.
    - A JavaScript [number] is an exact rational ([Q]): rounding, [NaN] and
      the infinities are outside the model.  Every division in the modelled
      code is by [100] or by a sum that was just tested to be [> 0].
      Equations between computed numbers are stated with [==] ([Qeq]).
      Module [Binary64] repeats the scaling formulas on IEEE 754 doubles
      to evaluate the scenarios as the browser does.
    - A text input that the source converts with [Number(...)] is taken as
      the number it denotes.
    - [JSON.parse(JSON.stringify(x))] is the identity on the values of the
      model, so a deep copy is the value itself and [localStorage] holds
      lists of recipes rather than their serialisation.
    - A handler of a React component is a function from the component state
      to the state update it requests, wrapped in a completion so that a
      thrown exception can be told apart from a normal return.
    - An asynchronous handler is split at its [await].  What runs after
      it reads the variables of the render in which it was started, while
      the setters and the browser act on the application as it is by
      then: that part takes both states. *)

From Stdlib Require Import ZArith QArith Qminmax Qfield String List Lia DecimalString.
From Stdlib Require Import Floats.
From stdpp Require Import base option list gmap strings.
Import ListNotations.

Set Warnings "-register-all".

Local Open Scope string_scope.
Local Open Scope list_scope.

(* ================================================================== *)
(** * JavaScript values and operators used by the source *)
(* ================================================================== *)

Module Js.

(** The exceptions the modelled code can raise. *)
Inductive Exception : Type :=
| TypeError
| SyntaxError
| Error (message : string).

(** How a call ends: with a value, or by throwing. *)
Inductive Completion (A : Type) : Type :=
| Normal (value : A)
| Throw (e : Exception).
Arguments Normal {A} value.
Arguments Throw {A} e.

(** A call fails when it ends by throwing, whatever the exception. *)
Definition fails {A : Type} (c : Completion A) : bool :=
  match c with
  | Normal _ => false
  | Throw _ => true
  end.

(** Sequencing: the rest runs only after a normal return. *)
Definition bind {A B : Type} (c : Completion A) (k : A -> Completion B) : Completion B :=
  match c with
  | Normal value => k value
  | Throw e => Throw e
  end.

(** [try { c } catch (error) { handler(error) }] *)
Definition try_catch {A : Type} (c : Completion A) (handler : Exception -> Completion A)
  : Completion A :=
  match c with
  | Normal value => Normal value
  | Throw e => handler e
  end.

(** Truthiness of an optional boolean field ([undefined] is falsy). *)
Definition truthy (b : option bool) : bool :=
  match b with
  | Some true => true
  | Some false | None => false
  end.

(** [a > b] on numbers. *)
Definition gt (a b : Q) : bool := negb (Qle_bool a b).

(** [Math.max(a, b)]. *)
Definition Math_max (a b : Q) : Q := Qmax a b.

(** [arr.reduce(f, init)] on a dense array. *)
Definition reduce {A B : Type} (f : B -> A -> B) (init : B) (arr : list A) : B :=
  fold_left f arr init.

(** [arr.filter((x, i) => p(x, i))]: the callback also receives the
    position of the element. *)
Fixpoint filter_from {A : Type} (p : A -> nat -> bool) (i : nat) (arr : list A) : list A :=
  match arr with
  | [] => []
  | x :: rest =>
      if p x i then x :: filter_from p (S i) rest else filter_from p (S i) rest
  end.

Definition filter_indexed {A : Type} (p : A -> nat -> bool) (arr : list A) : list A :=
  filter_from p 0 arr.

(** An array index as the callers pass it: any integer.  [i !== index]
    for the position [i] of an element. *)
Definition index_differs (i : nat) (index : Z) : bool :=
  negb (Z.of_nat i =? index)%Z.

Section SparseArrays.
Context {A : Type}.

(** A slot of an array after an unchecked indexed write: an element or
    a hole. *)
Inductive Slot : Type :=
| Elem (x : A)
| Hole.

(** [arr[index]]: [None] stands for [undefined]. *)
Definition array_get (arr : list Slot) (index : Z) : option A :=
  if (index <? 0)%Z then None
  else match arr !! Z.to_nat index with
       | Some (Elem x) => Some x
       | Some Hole | None => None
       end.

(** [arr[index] = x].  Inside the bounds the slot is replaced.  From the
    length up to [2^32 - 2], the largest array index, the array grows to
    [index + 1] slots and the skipped positions are holes.  A negative
    index, and an index of [2^32 - 1] or more, is a property key and not
    an element position: the slots and the length stay as they were (the
    stray property is invisible to [length], [reduce], [map], [filter],
    the spread syntax and [JSON.stringify]). *)
Definition array_set (arr : list Slot) (index : Z) (x : A) : list Slot :=
  if (index <? 0)%Z then arr
  else
    let i := Z.to_nat index in
    if (i <? length arr)%nat then <[i := Elem x]> arr
    else if (index <? 4294967295)%Z
         then arr ++ replicate (i - length arr) Hole ++ [Elem x]
         else arr.
End SparseArrays.
Arguments Slot A : clear implicits.

End Js.

(* ================================================================== *)
(** * The types of recipes, ingredients and users *)
(* ================================================================== *)

Inductive IngredientCategory : Type :=
| Flour | Liquid | Leavening | Enrichment | Flavor | Inclusion.

Record IngredientInfo : Type := mkIngredientInfo {
  info_name : string;
  category : IngredientCategory
}.

Record Ingredient : Type := mkIngredient {
  ing_name : string;
  percentage : Q
}.

Record Recipe : Type := mkRecipe {
  recipe_id : string;
  recipe_name : string;
  description : string;
  totalFlourGrams : Q;
  ingredients : list Ingredient;
  isStandard : option bool           (* [isStandard?: boolean] *)
}.

Record User : Type := mkUser {
  user_id : string;
  user_name : string;
  email : string;
  picture : string
}.

(** The object spreads [{...prev, field: value}] of the source. *)
Definition with_name (prev : Recipe) (value : string) : Recipe :=
  mkRecipe (recipe_id prev) value (description prev) (totalFlourGrams prev)
           (ingredients prev) (isStandard prev).

Definition with_description (prev : Recipe) (value : string) : Recipe :=
  mkRecipe (recipe_id prev) (recipe_name prev) value (totalFlourGrams prev)
           (ingredients prev) (isStandard prev).

Definition with_totalFlourGrams (prev : Recipe) (value : Q) : Recipe :=
  mkRecipe (recipe_id prev) (recipe_name prev) (description prev) value
           (ingredients prev) (isStandard prev).

Definition with_ingredients (prev : Recipe) (value : list Ingredient) : Recipe :=
  mkRecipe (recipe_id prev) (recipe_name prev) (description prev)
           (totalFlourGrams prev) value (isStandard prev).

(* ================================================================== *)
(** * constants.ts and data/standardRecipes.ts *)
(* ================================================================== *)

Definition ALL_INGREDIENTS : list IngredientInfo :=
  [ mkIngredientInfo "White Flour" Flour;
    mkIngredientInfo "Whole Wheat Flour" Flour;
    mkIngredientInfo "Other Flour" Flour;
    mkIngredientInfo "Water" Liquid;
    mkIngredientInfo "Milk" Liquid;
    mkIngredientInfo "Buttermilk" Liquid;
    mkIngredientInfo "Sourdough Levain" Leavening;
    mkIngredientInfo "Fresh Yeast" Leavening;
    mkIngredientInfo "Dried Yeast" Leavening;
    mkIngredientInfo "Salt" Flavor;
    mkIngredientInfo "Sugar / Honey / Malt" Flavor;
    mkIngredientInfo "Diastatic Malt Powder" Enrichment;
    mkIngredientInfo "Butter or Oil" Enrichment;
    mkIngredientInfo "Inclusion 1" Inclusion;
    mkIngredientInfo "Inclusion 2" Inclusion ].

(** [ALL_INGREDIENTS.map(i => i.name)] *)
Definition validIngredientNames : list string := map info_name ALL_INGREDIENTS.

Definition standardRecipes : list Recipe :=
  [ mkRecipe "std-1" "Artisanal Sourdough"
      "A classic, open-crumb sourdough with a crispy crust. Perfect for toast or sandwiches."
      1000%Q
      [ mkIngredient "White Flour" 90; mkIngredient "Whole Wheat Flour" 10;
        mkIngredient "Water" 75; mkIngredient "Sourdough Levain" 20;
        mkIngredient "Salt" 2.2 ]
      (Some true);
    mkRecipe "std-2" "Hearty Rye Bread"
      "A dense and flavorful rye bread with a tight crumb, great for savory toppings."
      1000%Q
      [ mkIngredient "White Flour" 50; mkIngredient "Other Flour" 50;
        mkIngredient "Water" 80; mkIngredient "Sourdough Levain" 30;
        mkIngredient "Salt" 2; mkIngredient "Sugar / Honey / Malt" 3 ]
      (Some true);
    mkRecipe "std-3" "Soft Sandwich Sourdough"
      "A softer sourdough loaf enriched with milk and butter, ideal for sandwiches."
      900%Q
      [ mkIngredient "White Flour" 100; mkIngredient "Milk" 65;
        mkIngredient "Sourdough Levain" 25; mkIngredient "Salt" 2;
        mkIngredient "Sugar / Honey / Malt" 5; mkIngredient "Butter or Oil" 8 ]
      (Some true);
    mkRecipe "std-4" "Sourdough Pizza Base"
      "A tangy and chewy pizza crust with great flavor development from sourdough."
      500%Q
      [ mkIngredient "White Flour" 100; mkIngredient "Water" 68;
        mkIngredient "Sourdough Levain" 15; mkIngredient "Salt" 2.5;
        mkIngredient "Butter or Oil" 3 ]
      (Some true) ].

(* ================================================================== *)
(** * components/RecipeView.tsx *)
(* ================================================================== *)

Module RecipeView.

Local Open Scope Q_scope.
Import Js.

(** The component state the handlers read: the [recipe] prop and the
    [editedRecipe] state variable. *)
Record State : Type := mkState {
  recipe : Recipe;
  editedRecipe : Recipe
}.

(** An element of the ingredient array as the handlers build it: an
    object literal in which either field may be missing. *)
Record IngredientObject : Type := mkObject {
  obj_name : option string;
  obj_percentage : option Q
}.

(** What a handler asks React to do with [editedRecipe]:
    - [NoUpdate]: it returned before any [setEditedRecipe];
    - [SetEditedRecipe next]: [setEditedRecipe(next)];
    - [SetEditedRecipeUntyped prev newIngredients]:
      [setEditedRecipe({...prev, ingredients: newIngredients})] where
      [newIngredients] is sparse or holds an object that lacks a field, so
      that the new state is not a [Recipe]. *)
Inductive Update : Type :=
| NoUpdate
| SetEditedRecipe (next : Recipe)
| SetEditedRecipeUntyped (prev : Recipe) (newIngredients : list (Slot IngredientObject)).

(** The state after React has applied an update; an untyped update
    leaves the model. *)
Definition commit (s : State) (u : Update) : option State :=
  match u with
  | NoUpdate => Some s
  | SetEditedRecipe next => Some (mkState (recipe s) next)
  | SetEditedRecipeUntyped _ _ => None
  end.

(** [ingredients.reduce((acc, ing) => acc + ing.percentage, 0)] *)
Definition totalPercentage (ings : list Ingredient) : Q :=
  reduce (fun acc ing => acc + percentage ing) 0 ings.

(** [useState(() => JSON.parse(JSON.stringify(recipe)))]: the state of
    the first render. *)
Definition initialState (recipe : Recipe) : State :=
  mkState recipe recipe.

(** The effect that runs when the [recipe] prop changes (and after the
    first render): deep copy, then scale to a 1000 g dough. *)
Definition useEffect_recipe (recipe : Recipe) : State :=
  let newRecipe := recipe in
  let totalPercentage := totalPercentage (ingredients newRecipe) in
  let newRecipe :=
    if gt totalPercentage 0 then
      let targetDoughWeight := 1000 in
      with_totalFlourGrams newRecipe ((targetDoughWeight / totalPercentage) * 100)
    else newRecipe in
  mkState recipe newRecipe.

(** [useMemo(() => recipe.isStandard, ...)], used as a condition. *)
Definition isReadOnly (s : State) : bool :=
  truthy (isStandard (recipe s)).

Definition totalDoughWeight (s : State) : Q :=
  let totalPercentage := totalPercentage (ingredients (editedRecipe s)) in
  (totalPercentage / 100) * totalFlourGrams (editedRecipe s).

(** The weight column of the table:
    [(ing.percentage / 100) * editedRecipe.totalFlourGrams]. *)
Definition ingredientGrams (s : State) (ing : Ingredient) : Q :=
  (percentage ing / 100) * totalFlourGrams (editedRecipe s).

(** The two text inputs wired to [handleChange], by their [name]
    attribute. *)
Inductive TextField : Type := NameField | DescriptionField.

Definition handleChange (s : State) (name : TextField) (value : string)
  : Completion Update :=
  if isReadOnly s then Normal NoUpdate
  else
    let prev := editedRecipe s in
    Normal (SetEditedRecipe
              match name with
              | NameField => with_name prev value
              | DescriptionField => with_description prev value
              end).

(** [value] is [Number(e.target.value)]. *)
Definition handleTotalDoughWeightChange (s : State) (value : Q)
  : Completion Update :=
  if isReadOnly s then Normal NoUpdate
  else
    let newDoughWeight := Math_max 0 value in
    let totalPercentage := totalPercentage (ingredients (editedRecipe s)) in
    if gt totalPercentage 0 then
      let newTotalFlourGrams := (newDoughWeight / totalPercentage) * 100 in
      let prev := editedRecipe s in
      Normal (SetEditedRecipe (with_totalFlourGrams prev newTotalFlourGrams))
    else Normal NoUpdate.

(** The [field] and [value] arguments of [handleIngredientChange] taken
    together: [value] is [Number(value)] for ['percentage'] and
    [String(value)] for ['name']. *)
Inductive IngredientEdit : Type :=
| EditPercentage (value : Q)
| EditName (value : string).

Definition object_of (ing : Ingredient) : IngredientObject :=
  mkObject (Some (ing_name ing)) (Some (percentage ing)).

(** [{ ...x }]: spreading [undefined] gives the empty object. *)
Definition spread (x : option IngredientObject) : IngredientObject :=
  match x with
  | Some o => o
  | None => mkObject None None
  end.

(** An object is an [Ingredient] when it has both fields. *)
Definition ingredient_of (o : IngredientObject) : option Ingredient :=
  match obj_name o, obj_percentage o with
  | Some n, Some p => Some (mkIngredient n p)
  | _, _ => None
  end.

(** An array is an [Ingredient[]] when it is dense and all its elements
    are ingredients. *)
Fixpoint ingredients_of (arr : list (Slot IngredientObject)) : option (list Ingredient) :=
  match arr with
  | [] => Some []
  | Elem o :: rest =>
      match ingredient_of o, ingredients_of rest with
      | Some ing, Some ings => Some (ing :: ings)
      | _, _ => None
      end
  | Hole :: _ => None
  end.

(** [setEditedRecipe(prev => ({ ...prev, ingredients: newIngredients }))] *)
Definition setIngredients (prev : Recipe) (newIngredients : list (Slot IngredientObject))
  : Update :=
  match ingredients_of newIngredients with
  | Some ings => SetEditedRecipe (with_ingredients prev ings)
  | None => SetEditedRecipeUntyped prev newIngredients
  end.

Definition handleIngredientChange (s : State) (index : Z) (edit : IngredientEdit)
  : Completion Update :=
  if isReadOnly s then Normal NoUpdate
  else
    let newIngredients := map (fun ing => Elem (object_of ing)) (ingredients (editedRecipe s)) in
    let newIngredient := spread (array_get newIngredients index) in
    let newIngredient :=
      match edit with
      | EditPercentage value =>
          mkObject (obj_name newIngredient) (Some (Math_max 0 value))
      | EditName value =>
          mkObject (Some value) (obj_percentage newIngredient)
      end in
    let newIngredients := array_set newIngredients index newIngredient in
    Normal (setIngredients (editedRecipe s) newIngredients).

(** The specification's name for a percentage edit. *)
Definition setIngredientPercentage (s : State) (index : Z) (newPercentage : Q)
  : Completion Update :=
  handleIngredientChange s index (EditPercentage newPercentage).

Definition addIngredient (s : State) : Completion Update :=
  if isReadOnly s then Normal NoUpdate
  else
    let newIngredient := mkIngredient "Water" 0 in
    let prev := editedRecipe s in
    Normal (SetEditedRecipe (with_ingredients prev (ingredients prev ++ [newIngredient]))).

Definition removeIngredient (s : State) (index : Z) : Completion Update :=
  if isReadOnly s then Normal NoUpdate
  else
    let prev := editedRecipe s in
    Normal (SetEditedRecipe
              (with_ingredients prev
                 (filter_indexed (fun _ i => index_differs i index) (ingredients prev)))).

(** [JSON.stringify(a) === JSON.stringify(b)] for two recipes whose keys
    come in the same order, as they do for a recipe and the copies the
    handlers make of it: the texts agree when the fields do, numbers
    compared as numbers. *)
Definition ingredient_eqb (a b : Ingredient) : bool :=
  String.eqb (ing_name a) (ing_name b) && Qeq_bool (percentage a) (percentage b).

Fixpoint ingredients_eqb (a b : list Ingredient) : bool :=
  match a, b with
  | [], [] => true
  | x :: a', y :: b' => ingredient_eqb x y && ingredients_eqb a' b'
  | _, _ => false
  end.

Definition flag_eqb (a b : option bool) : bool :=
  match a, b with
  | None, None => true
  | Some x, Some y => Bool.eqb x y
  | _, _ => false
  end.

Definition stringify_eqb (a b : Recipe) : bool :=
  String.eqb (recipe_id a) (recipe_id b)
  && String.eqb (recipe_name a) (recipe_name b)
  && String.eqb (description a) (description b)
  && Qeq_bool (totalFlourGrams a) (totalFlourGrams b)
  && ingredients_eqb (ingredients a) (ingredients b)
  && flag_eqb (isStandard a) (isStandard b).

(** [JSON.stringify(recipe) !== JSON.stringify(editedRecipe)]: enables
    the Save button. *)
Definition hasChanges (s : State) : bool :=
  negb (stringify_eqb (recipe s) (editedRecipe s)).

End RecipeView.


(* ================================================================== *)
(** * The root component [App] *)
(* ================================================================== *)

Module App.

Import Js.

Inductive View : Type := ViewLibrary | ViewRecipe | ViewImporter.

(** The state variables of [App], together with the two parts of the
    browser the handlers act on: [localStorage] (a key holds the recipe
    list whose serialisation was stored under it) and the messages shown
    by [alert], oldest first. *)
Record State : Type := mkState {
  view : View;
  recipes : list Recipe;
  selectedRecipe : option Recipe;
  user : option User;
  localStorage : gmap string (list Recipe);
  alerts : list string
}.

Definition alert (st : State) (message : string) : State :=
  mkState (view st) (recipes st) (selectedRecipe st) (user st) (localStorage st)
          (alerts st ++ [message]).

Definition setRecipes (st : State) (newRecipes : list Recipe) : State :=
  mkState (view st) newRecipes (selectedRecipe st) (user st) (localStorage st)
          (alerts st).

Definition setUser (st : State) (u : option User) : State :=
  mkState (view st) (recipes st) (selectedRecipe st) u (localStorage st)
          (alerts st).

Definition setStorage (st : State) (storage : gmap string (list Recipe)) : State :=
  mkState (view st) (recipes st) (selectedRecipe st) (user st) storage
          (alerts st).

Definition navigate (st : State) (selected : option Recipe) (v : View) : State :=
  mkState v (recipes st) selected (user st) (localStorage st) (alerts st).

(** [`userRecipes-${user.id}`] *)
Definition storageKey (u : User) : string :=
  String.append "userRecipes-" (user_id u).

(** [localStorage.getItem(key)] followed by
    [savedRecipes ? JSON.parse(savedRecipes) : []]. *)
Definition loadUserRecipes (storage : gmap string (list Recipe)) (u : User) : list Recipe :=
  match storage !! storageKey u with
  | Some userRecipes => userRecipes
  | None => []
  end.

(** The effect that depends on [user]. *)
Definition useEffect_user (st : State) : State :=
  match user st with
  | Some u => setRecipes st (standardRecipes ++ loadUserRecipes (localStorage st) u)
  | None => setRecipes st standardRecipes
  end.

(** Sign-in with the decoded identity, and sign-out, each followed by the
    effect on [user]. *)
Definition handleCredentialResponse (st : State) (currentUser : User) : State :=
  useEffect_user (setUser st (Some currentUser)).

Definition handleLogout (st : State) : State :=
  useEffect_user (setUser st None).

Definition saveUserRecipes (storage : gmap string (list Recipe))
    (userRecipes : list Recipe) (currentUser : option User)
  : gmap string (list Recipe) :=
  match currentUser with
  | None => storage
  | Some u => <[storageKey u := userRecipes]> storage
  end.

(** [newRecipes.filter(r => !r.isStandard)] *)
Definition nonStandard (newRecipes : list Recipe) : list Recipe :=
  List.filter (fun r => negb (truthy (isStandard r))) newRecipes.

Definition handleSelectRecipe (st : State) (r : Recipe) : State :=
  navigate st (Some r) ViewRecipe.

Definition handleBackToLibrary (st : State) : State :=
  navigate st None ViewLibrary.

Definition handleSaveRecipe (st : State) (updatedRecipe : Recipe) : Completion State :=
  match user st with
  | None => Normal (alert st "Please log in to save changes.")
  | Some _ =>
      let newRecipes :=
        map (fun r => if String.eqb (recipe_id r) (recipe_id updatedRecipe)
                      then updatedRecipe else r) (recipes st) in
      let st := setRecipes st newRecipes in
      let userRecipes := nonStandard newRecipes in
      Normal (setStorage st (saveUserRecipes (localStorage st) userRecipes (user st)))
  end.

Definition handleDeleteRecipe (st : State) (recipeId : string) : Completion State :=
  match user st with
  | None => Normal st
  | Some _ =>
      let newRecipes :=
        List.filter (fun r => negb (String.eqb (recipe_id r) recipeId)) (recipes st) in
      let st := setRecipes st newRecipes in
      let userRecipes := nonStandard newRecipes in
      let st := setStorage st (saveUserRecipes (localStorage st) userRecipes (user st)) in
      Normal (handleBackToLibrary st)
  end.

(** [Omit<Recipe, 'id' | 'isStandard'>] *)
Record ImportedRecipe : Type := mkImported {
  imported_name : string;
  imported_description : string;
  imported_totalFlourGrams : Q;
  imported_ingredients : list Ingredient
}.


(** [handleImportSuccess] as [RecipeImporter] calls it.  The importer
    holds the function it received in the render in which Import was
    clicked, and calls it after the [await], when the application may have
    rendered again: [user] and [recipes] in the body are those of that
    earlier render, [captured].  The setters, [localStorage] and [alert]
    act on the application as it is when the reply arrives, [st]; [user]
    is not set, so it stays as it is in [st]. *)
Definition handleImportSuccessAfter (captured st : State)
    (importedRecipeData : ImportedRecipe) (now : N) : Completion State :=
  match user captured with
  | None => Normal (alert st "Please log in to import and save a new recipe.")
  | Some _ =>
      let newRecipe :=
        mkRecipe (String.append "user-" (NilZero.string_of_uint (N.to_uint now)))
                 (imported_name importedRecipeData)
                 (imported_description importedRecipeData)
                 (imported_totalFlourGrams importedRecipeData)
                 (imported_ingredients importedRecipeData)
                 (Some false) in
      let newRecipes := recipes captured ++ [newRecipe] in
      let st := setRecipes st newRecipes in
      let userRecipes := nonStandard newRecipes in
      let st :=
        setStorage st (saveUserRecipes (localStorage st) userRecipes (user captured)) in
      Normal (navigate st (Some newRecipe) ViewRecipe)
  end.

(** [RecipeView]'s [handleSave], with [onSave] bound to
    [handleSaveRecipe]: [onSave(editedRecipe); alert('Recipe saved!')]. *)
Definition handleSave (st : State) (editedRecipe : Recipe) : Completion State :=
  bind (handleSaveRecipe st editedRecipe)
       (fun st => Normal (alert st "Recipe saved!")).

(** [RecipeView]'s [handleDelete], with [onDelete] bound to
    [handleDeleteRecipe]; [confirmed] is the answer to [window.confirm]. *)
Definition handleDelete (st : State) (r : Recipe) (confirmed : bool) : Completion State :=
  if confirmed then handleDeleteRecipe st (recipe_id r) else Normal st.

(** The persisted list of the signed-in user agrees with the recipe list
    on screen. *)
Definition synced (st : State) : Prop :=
  match user st with
  | Some u => loadUserRecipes (localStorage st) u = nonStandard (recipes st)
  | None => True
  end.



(** The application as a transition system.  Besides the state of [App]
    a configuration holds, for every import whose reply is still awaited,
    the state of the render in which Import was clicked: that is the
    render whose [handleImportSuccess] the importer will call.  While a
    reply is awaited the header and the Back button stay enabled, and an
    importer opened anew can send a further request, so any number of
    imports may be pending and the application may change under them. *)
Record System : Type := mkSystem {
  app : State;
  pending : list State
}.

(** The state after the first render. *)
Definition initial (storage : gmap string (list Recipe)) : State :=
  mkState ViewLibrary standardRecipes None None storage [].

Definition start (storage : gmap string (list Recipe)) : System :=
  mkSystem (initial storage) [].

(** One step per user action and per settled import.  The handlers bound
    to clicks run in the render that is on screen.  A reply is read at the
    type the importer declares for it.  The relation allows more than the
    interface offers (a save from any view, of any recipe): every run of
    the application is a path, not every path is a run. *)
Inductive step : System -> System -> Prop :=
| step_sign_in (sys : System) (u : User) :
    step sys (mkSystem (handleCredentialResponse (app sys) u) (pending sys))
| step_sign_out (sys : System) :
    step sys (mkSystem (handleLogout (app sys)) (pending sys))
| step_select (sys : System) (r : Recipe) :
    step sys (mkSystem (handleSelectRecipe (app sys) r) (pending sys))
| step_back (sys : System) :
    step sys (mkSystem (handleBackToLibrary (app sys)) (pending sys))
| step_importer (sys : System) :
    step sys (mkSystem (navigate (app sys) (selectedRecipe (app sys)) ViewImporter)
                       (pending sys))
| step_save (sys : System) (editedRecipe : Recipe) (st' : State) :
    handleSave (app sys) editedRecipe = Normal st' ->
    step sys (mkSystem st' (pending sys))
| step_delete (sys : System) (r : Recipe) (confirmed : bool) (st' : State) :
    handleDelete (app sys) r confirmed = Normal st' ->
    step sys (mkSystem st' (pending sys))
| step_import_click (sys : System) :
    view (app sys) = ViewImporter ->
    step sys (mkSystem (app sys) (app sys :: pending sys))
| step_import_reply (sys : System) (before after : list State) (captured : State)
    (data : ImportedRecipe) (now : N) (st' : State) :
    pending sys = before ++ captured :: after ->
    handleImportSuccessAfter captured (app sys) data now = Normal st' ->
    step sys (mkSystem st' (before ++ after))
| step_import_failed (sys : System) (before after : list State) (captured : State) :
    pending sys = before ++ captured :: after ->
    step sys (mkSystem (app sys) (before ++ after)).

Inductive reachable (storage : gmap string (list Recipe)) : System -> Prop :=
| reachable_start : reachable storage (start storage)
| reachable_step (sys sys' : System) :
    reachable storage sys -> step sys sys' -> reachable storage sys'.


End App.


(* ================================================================== *)
(** * services/geminiService.ts *)
(* ================================================================== *)

Module GeminiService.

Local Open Scope Q_scope.
Import Js.

(** The values [JSON.parse] produces. *)
Inductive Json : Type :=
| JNull
| JBool (b : bool)
| JNumber (q : Q)
| JString (s : string)
| JArray (items : list Json)
| JObject (members : list (string * Json)).

(** The member of an object literal under a key; of two members with the
    same key [JSON.parse] keeps the later one. *)
Fixpoint member (key : string) (members : list (string * Json)) : option Json :=
  match members with
  | [] => None
  | (k, v) :: rest =>
      match member key rest with
      | Some later => Some later
      | None => if String.eqb k key then Some v else None
      end
  end.

(** [x.key] for the keys the source reads ([name], [totalFlourGrams],
    [ingredients]): [None] stands for [undefined]; reading a property of
    [null] throws; booleans, numbers, strings and arrays have no property
    of these names. *)
Definition get (x : Json) (key : string) : Completion (option Json) :=
  match x with
  | JNull => Throw TypeError
  | JObject members => Normal (member key members)
  | JBool _ | JNumber _ | JString _ | JArray _ => Normal None
  end.

(** [!v]: the values that count as false. *)
Definition falsy (v : option Json) : bool :=
  match v with
  | None | Some JNull => true
  | Some (JBool b) => negb b
  | Some (JNumber q) => Qeq_bool q 0
  | Some (JString s) => String.eqb s ""
  | Some (JArray _) | Some (JObject _) => false
  end.

(** [typeof v !== 'number'] *)
Definition typeof_is_not_number (v : option Json) : bool :=
  match v with
  | Some (JNumber _) => false
  | _ => true
  end.

(** [Array.isArray(v)] *)
Definition Array_isArray (v : option Json) : bool :=
  match v with
  | Some (JArray _) => true
  | _ => false
  end.

Definition invalid_format : Exception :=
  Error "AI model returned a response with an invalid format.".

Definition failed_to_parse : Exception :=
  Error "Failed to parse recipe. The AI model could not understand the provided text or an API error occurred. Please try again with a clearer recipe format.".

Definition api_key_missing : Exception :=
  Error "AI features are disabled. API key is missing.".

(** The statements after [JSON.parse] inside the [try] block: the
    condition [!name || typeof totalFlourGrams !== 'number' ||
    !Array.isArray(ingredients)] evaluated left to right, then
    [return parsedRecipe]. *)
Definition validate (parsedRecipe : Json) : Completion Json :=
  bind (get parsedRecipe "name") (fun name =>
  if falsy name then Throw invalid_format
  else
    bind (get parsedRecipe "totalFlourGrams") (fun totalFlourGrams =>
    if typeof_is_not_number totalFlourGrams then Throw invalid_format
    else
      bind (get parsedRecipe "ingredients") (fun ingredients =>
      if negb (Array_isArray ingredients) then Throw invalid_format
      else Normal parsedRecipe))).

(** What came back from [client.models.generateContent]: a rejection, or
    a response whose [text] is given by what [JSON.parse] makes of it
    ([None] when the text is not JSON). *)
Inductive Response : Type :=
| Rejected (e : Exception)
| ResponseText (parsed : option Json).

(** [parseRecipeFromText], as a function of whether [getGeminiClient]
    finds an API key and of the service's response. *)
Definition parseRecipeFromText (apiKeyConfigured : bool) (response : Response)
  : Completion Json :=
  if negb apiKeyConfigured then Throw api_key_missing
  else
    try_catch
      match response with
      | Rejected e => Throw e
      | ResponseText None => Throw SyntaxError
      | ResponseText (Some parsedRecipe) => validate parsedRecipe
      end
      (fun _ => Throw failed_to_parse).

(** [getNutritionalInformation]: the gram amounts sent to the service and
    their total. *)
Definition ingredientsInGrams (recipe : Recipe) : list (string * Q) :=
  map (fun ing => (ing_name ing, (percentage ing / 100) * totalFlourGrams recipe))
      (ingredients recipe).

Definition totalDoughWeight (recipe : Recipe) : Q :=
  reduce (fun acc ing => acc + snd ing) 0 (ingredientsInGrams recipe).

Definition invalid_nutrition_format : Exception :=
  Error "AI model returned nutritional data with an invalid format.".

Definition failed_to_calculate : Exception :=
  Error "Failed to calculate nutrition. The AI model could not process the recipe or an API error occurred.".

(** The statements after [JSON.parse] inside the [try] block of
    [getNutritionalInformation]: the five [typeof ... !== 'number'] tests
    joined by [||], then [return nutritionalInfo]. *)
Definition validateNutrition (nutritionalInfo : Json) : Completion Json :=
  bind (get nutritionalInfo "calories") (fun calories =>
  if typeof_is_not_number calories then Throw invalid_nutrition_format
  else
    bind (get nutritionalInfo "proteinGrams") (fun proteinGrams =>
    if typeof_is_not_number proteinGrams then Throw invalid_nutrition_format
    else
      bind (get nutritionalInfo "fatGrams") (fun fatGrams =>
      if typeof_is_not_number fatGrams then Throw invalid_nutrition_format
      else
        bind (get nutritionalInfo "carbohydrateGrams") (fun carbohydrateGrams =>
        if typeof_is_not_number carbohydrateGrams then Throw invalid_nutrition_format
        else
          bind (get nutritionalInfo "fiberGrams") (fun fiberGrams =>
          if typeof_is_not_number fiberGrams then Throw invalid_nutrition_format
          else Normal nutritionalInfo))))).

(** [getNutritionalInformation], as a function of whether an API key is
    configured and of the service's response; the recipe and the serving
    size go into the prompt only. *)
Definition getNutritionalInformation (apiKeyConfigured : bool) (response : Response)
  : Completion Json :=
  if negb apiKeyConfigured then Throw api_key_missing
  else
    try_catch
      match response with
      | Rejected e => Throw e
      | ResponseText None => Throw SyntaxError
      | ResponseText (Some nutritionalInfo) => validateNutrition nutritionalInfo
      end
      (fun _ => Throw failed_to_calculate).

End GeminiService.


(* ================================================================== *)
(** * The specification's vocabulary *)
(* ================================================================== *)

Module Spec.

Local Open Scope Q_scope.

(** "Sum of the percentages of all ingredients", by recursion on the
    sequence rather than with an accumulator. *)
Fixpoint sumOfPercentages (ings : list Ingredient) : Q :=
  match ings with
  | [] => 0
  | ing :: rest => percentage ing + sumOfPercentages rest
  end.

(** A recipe is standard when its flag is set; an absent flag means a
    user recipe. *)
Definition standard (r : Recipe) : Prop := isStandard r = Some true.

(** "Index [< 0] or [>= length(ingredients)]". *)
Definition outOfRange (index : Z) (ings : list Ingredient) : Prop :=
  (index < 0 \/ Z.of_nat (length ings) <= index)%Z.

(** The validation contract of section 4.3, in its own words: [name]
    non-empty, [totalFlourGrams] a positive number, [ingredients] a
    sequence of [{name, percentage}] pairs with [percentage >= 0]. *)
Definition contractIngredient (j : GeminiService.Json) : bool :=
  match j with
  | GeminiService.JObject members =>
      match GeminiService.member "name" members,
            GeminiService.member "percentage" members with
      | Some (GeminiService.JString _), Some (GeminiService.JNumber p) => Qle_bool 0 p
      | _, _ => false
      end
  | _ => false
  end.

Definition contract (j : GeminiService.Json) : bool :=
  match j with
  | GeminiService.JObject members =>
      match GeminiService.member "name" members,
            GeminiService.member "totalFlourGrams" members,
            GeminiService.member "ingredients" members with
      | Some (GeminiService.JString name), Some (GeminiService.JNumber grams),
        Some (GeminiService.JArray items) =>
          negb (String.eqb name "") && Js.gt grams 0 && forallb contractIngredient items
      | _, _, _ => false
      end
  | _ => false
  end.

End Spec.

(* ================================================================== *)
(** * Values used in the scenarios *)
(* ================================================================== *)

Module Scenario.

Import GeminiService.

Definition water : Ingredient := mkIngredient "Water" 75.

(** The recipe of the 1670 g scenario: a user recipe, no flag. *)
Definition loaf : Recipe :=
  mkRecipe "user-1" "Country Loaf" "" 1000
           [ mkIngredient "White Flour" 90; water; mkIngredient "Salt" 2 ]
           None.

(** The first standard recipe, [std-1]. *)
Definition sourdough : Recipe :=
  mkRecipe "std-1" "Artisanal Sourdough"
    "A classic, open-crumb sourdough with a crispy crust. Perfect for toast or sandwiches."
    1000%Q
    [ mkIngredient "White Flour" 90; mkIngredient "Whole Wheat Flour" 10;
      mkIngredient "Water" 75; mkIngredient "Sourdough Levain" 20;
      mkIngredient "Salt" 2.2 ]
    (Some true).

(** A recipe with no ingredient at all. *)
Definition blank : Recipe := mkRecipe "user-2" "Blank" "" 1000 [] None.

Definition baker : User := mkUser "42" "Baker" "baker@example.org" "".

(** A signed-in session showing the standard recipes and [loaf], with
    [loaf] persisted for the user. *)
Definition session : App.State :=
  App.mkState App.ViewLibrary (standardRecipes ++ [loaf]) None (Some baker)
              (<[App.storageKey baker := [loaf]]> ∅) [].


Definition imported : App.ImportedRecipe :=
  App.mkImported "Focaccia" "" 500 [ mkIngredient "White Flour" 100; water ].

(** Adapter output of the rejection scenario:
    [{name: "", totalFlourGrams: 1000, ingredients: []}]. *)
Definition emptyName : Json :=
  JObject [ ("name", JString ""); ("totalFlourGrams", JNumber 1000);
            ("ingredients", JArray []) ].

(** Adapter output with a negative flour weight and a negative
    percentage. *)
Definition negativeAmounts : Json :=
  JObject [ ("name", JString "Loaf"); ("description", JString "");
            ("totalFlourGrams", JNumber (-5));
            ("ingredients",
             JArray [ JObject [ ("name", JString "Water"); ("percentage", JNumber (-3)) ] ]) ].

(** Adapter output with everything in order. *)
Definition wellFormed : Json :=
  JObject [ ("name", JString "Loaf"); ("description", JString "");
            ("totalFlourGrams", JNumber 1000);
            ("ingredients",
             JArray [ JObject [ ("name", JString "White Flour"); ("percentage", JNumber 100) ];
                      JObject [ ("name", JString "Water"); ("percentage", JNumber 75) ] ]) ].

End Scenario.


(* ================================================================== *)
(** * The scaling formulas on binary64 numbers *)
(* ================================================================== *)

Module Binary64.

Local Open Scope float_scope.

(** [ingredients.reduce((acc, ing) => acc + ing.percentage, 0)] *)
Definition totalPercentage (percentages : list float) : float :=
  Js.reduce (fun acc p => acc + p) 0 percentages.

(** [(totalPercentage / 100) * editedRecipe.totalFlourGrams] *)
Definition totalDoughWeight (percentages : list float) (totalFlourGrams : float) : float :=
  (totalPercentage percentages / 100) * totalFlourGrams.

(** [(newDoughWeight / totalPercentage) * 100] *)
Definition newTotalFlourGrams (newDoughWeight : float) (percentages : list float) : float :=
  (newDoughWeight / totalPercentage percentages) * 100.

(** [(ing.percentage / 100) * editedRecipe.totalFlourGrams] *)
Definition ingredientGrams (percentage totalFlourGrams : float) : float :=
  (percentage / 100) * totalFlourGrams.

(** The percentages of the scenario recipe and of [std-3]. *)
Definition loaf : list float := [90; 75; 2].
Definition sandwich : list float := [100; 65; 25; 2; 5; 8].

End Binary64.


(* ================================================================== *)
(** * The editor as an event loop *)
(* ================================================================== *)

Module Editor.

Local Open Scope Q_scope.
Import Js RecipeView.

(** The events the rendered editor wires to its handlers. *)
Inductive Event : Type :=
| Change (name : TextField) (value : string)
| TotalDoughWeightChange (value : Q)
| IngredientChange (index : Z) (edit : IngredientEdit)
| AddIngredient
| RemoveIngredient (index : Z).

Definition handle (s : State) (e : Event) : Completion Update :=
  match e with
  | Change name value => handleChange s name value
  | TotalDoughWeightChange value => handleTotalDoughWeightChange s value
  | IngredientChange index edit => handleIngredientChange s index edit
  | AddIngredient => addIngredient s
  | RemoveIngredient index => removeIngredient s index
  end.

(** One turn of the loop: run the handler, let React apply the update.
    [None] when the handler throws or stores an untyped state. *)
Definition dispatch (s : State) (e : Event) : option State :=
  match handle s e with
  | Normal u => commit s u
  | Throw _ => None
  end.

Fixpoint run (s : State) (events : list Event) : option State :=
  match events with
  | [] => Some s
  | e :: rest =>
      match dispatch s e with
      | Some s' => run s' rest
      | None => None
      end
  end.

(** The events the markup can produce.  On a read-only recipe the inputs
    are disabled and the buttons are not rendered.  Otherwise the row
    controls exist for the rows of the table only, and the name of a row is
    picked from a [select] over [ALL_INGREDIENTS]. *)
Definition inRange (index : Z) (r : Recipe) : Prop :=
  (0 <= index < Z.of_nat (length (ingredients r)))%Z.

Definition offered (s : State) (e : Event) : Prop :=
  isReadOnly s = false
  /\ match e with
     | Change _ _ | TotalDoughWeightChange _ | AddIngredient => True
     | IngredientChange index (EditPercentage _) => inRange index (editedRecipe s)
     | IngredientChange index (EditName value) =>
         inRange index (editedRecipe s) /\ In value validIngredientNames
     | RemoveIngredient index => inRange index (editedRecipe s)
     end.

(** No negative amount: the flour weight and every percentage. *)
Definition nonNegative (r : Recipe) : Prop :=
  0 <= totalFlourGrams r /\ Forall (fun ing => 0 <= percentage ing) (ingredients r).

(** Every ingredient is named after a catalog entry. *)
Definition catalogNames (r : Recipe) : Prop :=
  Forall (fun ing => In (ing_name ing) validIngredientNames) (ingredients r).

End Editor.


(* ================================================================== *)
(** * RecipeListItem.tsx *)
(* ================================================================== *)

Module RecipeListItem.

Local Open Scope Q_scope.
Import Js.

(** [new Map(ALL_INGREDIENTS.map(i => [i.name, i]))]: of two entries with
    the same key the later one stays. *)
Definition ingredientInfoMap : gmap string IngredientInfo :=
  fold_left (fun m i => <[info_name i := i]> m) ALL_INGREDIENTS ∅.

Definition category_eqb (a b : IngredientCategory) : bool :=
  match a, b with
  | Flour, Flour | Liquid, Liquid | Leavening, Leavening
  | Enrichment, Enrichment | Flavor, Flavor | Inclusion, Inclusion => true
  | _, _ => false
  end.

(** [ingredientInfoMap.get(i.name)?.category === c] *)
Definition hasCategory (c : IngredientCategory) (i : Ingredient) : bool :=
  match ingredientInfoMap !! ing_name i with
  | Some info => category_eqb (category info) c
  | None => false
  end.

(** The rest of a string after its first [n] characters. *)
Definition skip (n : nat) (s : string) : string :=
  String.substring n (String.length s - n) s.

(** [s.replace(pattern, replacement)] for a string pattern and a
    replacement without [$]: the leftmost occurrence is replaced. *)
Fixpoint replace (pattern replacement s : string) : string :=
  if String.prefix pattern s
  then String.append replacement (skip (String.length pattern) s)
  else match s with
       | EmptyString => EmptyString
       | String c rest => String c (replace pattern replacement rest)
       end.

Definition flourTypes (recipe : Recipe) : string :=
  String.concat " / "
    (map (fun i => replace " Flour" "" (ing_name i))
         (List.filter (hasCategory Flour) (ingredients recipe))).

Definition hydration (recipe : Recipe) : Q :=
  reduce (fun total ing => total + percentage ing) 0
         (List.filter (hasCategory Liquid) (ingredients recipe)).

(** [{flourTypes || 'N/A'}] *)
Definition flourLabel (recipe : Recipe) : string :=
  if String.eqb (flourTypes recipe) "" then "N/A" else flourTypes recipe.

End RecipeListItem.


(* ================================================================== *)
(** * The nutrition panel of RecipeView.tsx *)
(* ================================================================== *)

Module NutritionPanel.

Import Js GeminiService.

(** The three state variables of the panel. *)
Record State : Type := mkState {
  nutrition : option Json;
  isNutritionLoading : bool;
  nutritionError : option string
}.

(** How the awaited promise settled, as the handler sees it: the value,
    or the [message] of the error.  The text of the messages of built-in
    exceptions depends on the engine and is not modelled, so those have no
    counterpart here. *)
Inductive Settled : Type :=
| Resolved (info : Json)
| Failed (message : string).

Definition settled (c : Completion Json) : option Settled :=
  match c with
  | Normal info => Some (Resolved info)
  | Throw (Error message) => Some (Failed message)
  | Throw TypeError | Throw SyntaxError => None
  end.

(** [handleCalculateNutrition] up to the [await]. *)
Definition beforeAwait (p : State) : State :=
  mkState None true None.

(** ... and after it: [setNutrition(info)] or
    [setNutritionError(err.message)], then, in [finally],
    [setIsNutritionLoading(false)]. *)
Definition afterAwait (p : State) (result : Settled) : State :=
  match result with
  | Resolved info => mkState (Some info) false (nutritionError p)
  | Failed message => mkState (nutrition p) false (Some message)
  end.

(** The whole handler for one request. *)
Definition handleCalculateNutrition (p : State) (apiKeyConfigured : bool)
    (response : Response) : option State :=
  match settled (getNutritionalInformation apiKeyConfigured response) with
  | Some result => Some (afterAwait (beforeAwait p) result)
  | None => None
  end.

(** What the effect on the [recipe] prop does to the panel. *)
Definition useEffect_recipe (p : State) : State :=
  mkState None (isNutritionLoading p) None.

End NutritionPanel.


(* ================================================================== *)
(** * RecipeImporter.tsx *)
(* ================================================================== *)

Module RecipeImporter.

Import Js GeminiService.

Record State : Type := mkState {
  text : string;
  isLoading : bool;
  error : option string
}.

Section HandleImport.
Context {R : Type}.

(** [engineMessage] gives the [message] of a built-in exception, which
    the engine words.  [onImportSuccess] is the function received as a
    prop, here by how a call to it ends; what the call does to the
    application is [App.handleImportSuccessAfter]. *)
Variable engineMessage : Exception -> string.
Variable onImportSuccess : Json -> Completion R.

(** [err.message].  Every exception of the model is an instance of
    [Error], so the branch for other thrown values is never taken. *)
Definition message (err : Exception) : string :=
  match err with
  | Error text => text
  | TypeError | SyntaxError => engineMessage err
  end.

(** [handleImport] up to the [await]: [setError(null)],
    [setIsLoading(true)]. *)
Definition beforeAwait (imp : State) : State :=
  mkState (text imp) true None.

(** ... and after it, given how the [try] block ended: the [catch] block
    [setError(err.message)], then, in [finally], [setIsLoading(false)]. *)
Definition afterAwait (imp : State) (tried : Completion R) : State :=
  match tried with
  | Normal _ => mkState (text imp) false (error imp)
  | Throw err => mkState (text imp) false (Some (message err))
  end.

(** [handleImport] for one click; [trimmed] is [text.trim()].  The result
    is the state the importer is left in once the promise has settled, and
    the value [onImportSuccess] was called with, if it was called: the
    value [parseRecipeFromText] resolved to, as it came. *)
Definition handleImport (imp : State) (trimmed : string) (apiKeyConfigured : bool)
    (response : Response) : State * option Json :=
  if String.eqb trimmed "" then
    (mkState (text imp) (isLoading imp) (Some "Please paste recipe text."), None)
  else
    let imp := beforeAwait imp in
    match parseRecipeFromText apiKeyConfigured response with
    | Normal newRecipe => (afterAwait imp (onImportSuccess newRecipe), Some newRecipe)
    | Throw err => (afterAwait imp (Throw err), None)
    end.

End HandleImport.

End RecipeImporter.


(* ================================================================== *)
(** * Arithmetic of the scaling formulas *)
(* ================================================================== *)

Section Arithmetic.

Local Open Scope Q_scope.

Lemma gt_true (a b : Q) : Js.gt a b = true <-> b < a.
Proof.
  unfold Js.gt. rewrite negb_true_iff.
  split; intro H.
  - apply Qnot_le_lt. intro Hle. apply Qle_bool_iff in Hle. congruence.
  - destruct (Qle_bool a b) eqn:E; [|reflexivity].
    apply Qle_bool_iff in E. exfalso. exact (Qlt_not_le _ _ H E).
Qed.

Lemma gt_false (a b : Q) : Js.gt a b = false <-> a <= b.
Proof.
  unfold Js.gt. rewrite negb_false_iff. apply Qle_bool_iff.
Qed.

Lemma Math_max_nonneg (d : Q) : 0 <= Js.Math_max 0 d.
Proof. unfold Js.Math_max. apply Q.le_max_l. Qed.

Lemma Math_max_of_nonneg (d : Q) : 0 <= d -> Js.Math_max 0 d == d.
Proof. intro H. unfold Js.Math_max. apply Q.max_r. exact H. Qed.

Lemma Math_max_of_neg (d : Q) : d <= 0 -> Js.Math_max 0 d == 0.
Proof. intro H. unfold Js.Math_max. apply Q.max_l. exact H. Qed.

(** Clamping twice is clamping once, as the same number and not only an
    equal one. *)
Lemma Math_max_idem (d : Q) : Js.Math_max 0 (Js.Math_max 0 d) = Js.Math_max 0 d.
Proof.
  unfold Js.Math_max, Qmax, GenericMinMax.gmax.
  destruct (0 ?= d) eqn:E; try reflexivity.
  rewrite E. reflexivity.
Qed.

(** The accumulator of [reduce] can be taken out of the sum. *)
Lemma reduce_percentages (ings : list Ingredient) (acc : Q) :
  Js.reduce (fun a ing => a + percentage ing) acc ings
  == acc + Spec.sumOfPercentages ings.
Proof.
  unfold Js.reduce. revert acc.
  induction ings as [|ing rest IH]; intro acc; simpl.
  - ring.
  - rewrite IH. ring.
Qed.

Lemma totalPercentage_sum (ings : list Ingredient) :
  RecipeView.totalPercentage ings == Spec.sumOfPercentages ings.
Proof.
  unfold RecipeView.totalPercentage. rewrite reduce_percentages. ring.
Qed.

Lemma totalPercentage_nil : RecipeView.totalPercentage [] = 0.
Proof. reflexivity. Qed.

(** Summing the gram amounts is scaling the summed percentages. *)
Lemma reduce_grams (ings : list Ingredient) (grams acc : Q) :
  Js.reduce (fun a (ing : string * Q) => a + snd ing) acc
            (map (fun ing => (ing_name ing, (percentage ing / 100) * grams)) ings)
  == acc + (Spec.sumOfPercentages ings / 100) * grams.
Proof.
  unfold Js.reduce. revert acc.
  induction ings as [|ing rest IH]; intro acc; simpl.
  - field.
  - rewrite IH. field.
Qed.

(** Back-solving the flour weight gives the dough weight asked for. *)
Lemma rescale_roundtrip (total d : Q) :
  0 < total -> (total / 100) * ((d / total) * 100) == d.
Proof.
  intro H. field. intro E. rewrite E in H. exact (Qlt_irrefl 0 H).
Qed.

End Arithmetic.


(* ================================================================== *)
(** * The scaling engine: dough weight and rescaling *)
(* ================================================================== *)

Section Scaling.

Local Open Scope Q_scope.
Import RecipeView.

Lemma isReadOnly_standard (s : State) :
  Spec.standard (recipe s) -> isReadOnly s = true.
Proof. unfold Spec.standard, isReadOnly. intros ->. reflexivity. Qed.

Lemma isReadOnly_editable (s : State) :
  ~ Spec.standard (recipe s) -> isReadOnly s = false.
Proof.
  unfold Spec.standard, isReadOnly. intro H.
  destruct (isStandard (recipe s)) as [[|]|]; try reflexivity.
  exfalso. apply H. reflexivity.
Qed.

(** The dough weight sent to the nutrition service, a sum of gram
    amounts, is the same scaled sum. *)
Lemma nutrition_totalDoughWeight (r : Recipe) :
  GeminiService.totalDoughWeight r
  == (Spec.sumOfPercentages (ingredients r) / 100) * totalFlourGrams r.
Proof.
  unfold GeminiService.totalDoughWeight, GeminiService.ingredientsInGrams.
  rewrite reduce_grams. ring.
Qed.

(** C1.  The displayed total dough weight is the sum of the ingredient
    percentages, divided by 100, times the total flour weight; it is 0 for
    an empty ingredient list; for 1000 g of flour with White Flour 90,
    Water 75 and Salt 2 it is 1670.  The dough weight computed for the
    nutrition request, a sum of per-ingredient grams, is the same number. *)
Theorem C1_total_dough_weight :
  (forall s : State,
      totalDoughWeight s
      == (Spec.sumOfPercentages (ingredients (editedRecipe s)) / 100)
         * totalFlourGrams (editedRecipe s))
  /\ (forall s : State,
        ingredients (editedRecipe s) = [] -> totalDoughWeight s == 0)
  /\ totalDoughWeight (initialState Scenario.loaf) == 1670
  /\ (forall s : State,
        GeminiService.totalDoughWeight (editedRecipe s) == totalDoughWeight s).
Proof.
  assert (formula : forall s : State,
             totalDoughWeight s
             == (Spec.sumOfPercentages (ingredients (editedRecipe s)) / 100)
                * totalFlourGrams (editedRecipe s)).
  { intro s. unfold totalDoughWeight. cbv zeta.
    rewrite totalPercentage_sum. reflexivity. }
  split; [|split; [|split]].
  - exact formula.
  - intros s Hnil. rewrite formula, Hnil. simpl. field.
  - reflexivity.
  - intro s. rewrite formula. apply nutrition_totalDoughWeight.
Qed.

Lemma C1_total_dough_weight_witness :
  ingredients (editedRecipe (initialState Scenario.blank)) = []
  /\ totalDoughWeight (initialState Scenario.blank) == 0.
Proof.
  split.
  - reflexivity.
  - apply (proj1 (proj2 C1_total_dough_weight)). reflexivity.
Defined.

Lemma sourdough_is_standard :
  In Scenario.sourdough standardRecipes /\ Spec.standard Scenario.sourdough.
Proof. split; [left|]; reflexivity. Qed.




(** A flour weight stored by a dough-weight edit is computed from the
    clamped target. *)
Lemma rescale_stored_flour (s : State) (d : Q) (r' : Recipe) :
  handleTotalDoughWeightChange s d = Js.Normal (SetEditedRecipe r') ->
  0 < totalPercentage (ingredients (editedRecipe s))
  /\ totalFlourGrams r'
     = (Js.Math_max 0 d / totalPercentage (ingredients (editedRecipe s))) * 100.
Proof.
  unfold handleTotalDoughWeightChange.
  destruct (isReadOnly s); [discriminate|]. cbv zeta.
  destruct (Js.gt (totalPercentage (ingredients (editedRecipe s))) 0) eqn:Hgt;
    [|discriminate].
  intro H. injection H as <-. simpl.
  split; [apply gt_true; exact Hgt | reflexivity].
Qed.

(** A negative target is treated as 0: the stored flour weight is 0. *)
Lemma rescale_negative_target (s : State) (d : Q) (r' : Recipe) :
  d <= 0 ->
  handleTotalDoughWeightChange s d = Js.Normal (SetEditedRecipe r') ->
  totalFlourGrams r' == 0.
Proof.
  intros Hd H.
  destruct (rescale_stored_flour s d r' H) as [_ ->].
  rewrite (Math_max_of_neg d Hd). unfold Qdiv. ring.
Qed.

(** Asking twice for the same dough weight stores the same flour weight
    the second time: the edit reads the percentages and the target, not
    the current flour weight. *)
Lemma rescale_idempotent (s : State) (d : Q) (r' : Recipe) :
  handleTotalDoughWeightChange s d = Js.Normal (SetEditedRecipe r') ->
  handleTotalDoughWeightChange (mkState (recipe s) r') d
  = Js.Normal (SetEditedRecipe r').
Proof.
  unfold handleTotalDoughWeightChange, isReadOnly. cbn [recipe editedRecipe].
  destruct (Js.truthy (isStandard (recipe s))); [discriminate|]. cbv zeta.
  destruct (Js.gt (totalPercentage (ingredients (editedRecipe s))) 0) eqn:Hgt;
    [|discriminate].
  intro H. injection H as <-.
  cbn [with_totalFlourGrams ingredients]. rewrite Hgt. reflexivity.
Qed.

(** C6.  When the percentages sum to exactly 0 a dough-weight edit changes
    nothing, whatever the target and whatever the recipe.  Otherwise the
    target is clamped at 0 before it is scaled: on an editable recipe whose
    percentages sum to more than 0 an update is stored for every target; a
    target that is not negative is scaled as it is, a negative target is
    scaled as 0, so that the flour weight and the dough weight become 0;
    the edit made for [d] is the edit made for [max(0, d)], and no stored
    flour weight is negative. *)
Theorem C6_rescale_zero_sum_and_clamp :
  (forall (s : State) (d : Q),
      Spec.sumOfPercentages (ingredients (editedRecipe s)) == 0 ->
      handleTotalDoughWeightChange s d = Js.Normal NoUpdate
      /\ commit s NoUpdate = Some s)
  /\ (forall (s : State) (d : Q),
        ~ Spec.standard (recipe s) ->
        0 < Spec.sumOfPercentages (ingredients (editedRecipe s)) ->
        exists r' : Recipe,
          handleTotalDoughWeightChange s d = Js.Normal (SetEditedRecipe r')
          /\ ingredients r' = ingredients (editedRecipe s)
          /\ (0 <= d ->
              totalFlourGrams r'
              == (d / Spec.sumOfPercentages (ingredients (editedRecipe s))) * 100
              /\ totalDoughWeight (mkState (recipe s) r') == d)
          /\ (d <= 0 ->
              totalFlourGrams r' == 0
              /\ totalDoughWeight (mkState (recipe s) r') == 0))
  /\ (forall (s : State) (d : Q),
        handleTotalDoughWeightChange s d
        = handleTotalDoughWeightChange s (Js.Math_max 0 d))
  /\ (forall (s : State) (d : Q) (r' : Recipe),
        handleTotalDoughWeightChange s d = Js.Normal (SetEditedRecipe r') ->
        totalFlourGrams r'
        = (Js.Math_max 0 d / totalPercentage (ingredients (editedRecipe s))) * 100
        /\ 0 <= Js.Math_max 0 d
        /\ 0 <= totalFlourGrams r').
Proof.
  split; [|split; [|split]].
  - intros s d Hzero. split; [|reflexivity].
    unfold handleTotalDoughWeightChange.
    destruct (isReadOnly s); [reflexivity|]. cbv zeta.
    assert (Hle : Js.gt (totalPercentage (ingredients (editedRecipe s))) 0 = false).
    { apply gt_false. rewrite totalPercentage_sum, Hzero. apply Qle_refl. }
    rewrite Hle. reflexivity.
  - intros s d Hstd Hsum.
    pose proof (totalPercentage_sum (ingredients (editedRecipe s))) as Htp.
    assert (Hgt : Js.gt (totalPercentage (ingredients (editedRecipe s))) 0 = true).
    { apply gt_true. rewrite Htp. exact Hsum. }
    assert (Hne : ~ Spec.sumOfPercentages (ingredients (editedRecipe s)) == 0).
    { intro E. rewrite E in Hsum. exact (Qlt_irrefl 0 Hsum). }
    eexists. split.
    { unfold handleTotalDoughWeightChange.
      rewrite (isReadOnly_editable s Hstd). cbv zeta. rewrite Hgt. reflexivity. }
    split; [reflexivity|].
    unfold totalDoughWeight.
    cbn [editedRecipe with_totalFlourGrams totalFlourGrams ingredients].
    split.
    + intro Hd. rewrite Htp, (Math_max_of_nonneg d Hd).
      split; [reflexivity | apply rescale_roundtrip; exact Hsum].
    + intro Hd. rewrite Htp, (Math_max_of_neg d Hd).
      split; field; exact Hne.
  - intros s d. unfold handleTotalDoughWeightChange.
    rewrite Math_max_idem. reflexivity.
  - intros s d r' H.
    destruct (rescale_stored_flour s d r' H) as [Hpos ->].
    split; [reflexivity|]. split; [apply Math_max_nonneg|].
    apply Qmult_le_0_compat; [|discriminate].
    apply Qle_shift_div_l; [exact Hpos|].
    rewrite Qmult_0_l. apply Math_max_nonneg.
Qed.

Lemma C6_rescale_zero_sum_and_clamp_witness :
  Spec.sumOfPercentages (ingredients (editedRecipe (initialState Scenario.blank))) == 0
  /\ handleTotalDoughWeightChange (initialState Scenario.blank) 835 = Js.Normal NoUpdate
  /\ ~ Spec.standard (recipe (initialState Scenario.loaf))
  /\ 0 < Spec.sumOfPercentages (ingredients (editedRecipe (initialState Scenario.loaf)))
  /\ -5 <= 0
  /\ exists r' : Recipe,
       handleTotalDoughWeightChange (initialState Scenario.loaf) (-5)
       = Js.Normal (SetEditedRecipe r')
       /\ totalFlourGrams r' == 0
       /\ totalDoughWeight (mkState Scenario.loaf r') == 0.
Proof.
  assert (H1 : ~ Spec.standard (recipe (initialState Scenario.loaf)))
    by (unfold Spec.standard; simpl; discriminate).
  assert (H2 : 0 < Spec.sumOfPercentages
                     (ingredients (editedRecipe (initialState Scenario.loaf))))
    by reflexivity.
  assert (H3 : -5 <= 0) by discriminate.
  split; [reflexivity|]. split.
  { apply (proj1 C6_rescale_zero_sum_and_clamp (initialState Scenario.blank) 835).
    reflexivity. }
  split; [exact H1|]. split; [exact H2|]. split; [exact H3|].
  destruct (proj1 (proj2 C6_rescale_zero_sum_and_clamp)
              (initialState Scenario.loaf) (-5) H1 H2)
    as (r' & Hrun & _ & _ & Hneg).
  exists r'. split; [exact Hrun|]. exact (Hneg H3).
Defined.

(** C10.  Opening a recipe leaves the stored recipe as it is and gives the
    editor a copy that differs at most in its flour weight.  When the
    percentages sum to more than 0 the copy's flour weight is
    [(1000 / sum) * 100] and the displayed dough weight is 1000, for
    standard and user recipes alike, whatever flour weight was stored; when
    they sum to 0 the copy is the stored recipe. *)
Theorem C10_open_scales_to_1000 (r : Recipe) :
  recipe (useEffect_recipe r) = r
  /\ recipe_id (editedRecipe (useEffect_recipe r)) = recipe_id r
  /\ recipe_name (editedRecipe (useEffect_recipe r)) = recipe_name r
  /\ description (editedRecipe (useEffect_recipe r)) = description r
  /\ ingredients (editedRecipe (useEffect_recipe r)) = ingredients r
  /\ isStandard (editedRecipe (useEffect_recipe r)) = isStandard r
  /\ (0 < Spec.sumOfPercentages (ingredients r) ->
        totalFlourGrams (editedRecipe (useEffect_recipe r))
        == (1000 / Spec.sumOfPercentages (ingredients r)) * 100
        /\ totalDoughWeight (useEffect_recipe r) == 1000)
  /\ (Spec.sumOfPercentages (ingredients r) == 0 ->
        editedRecipe (useEffect_recipe r) = r).
Proof.
  pose proof (totalPercentage_sum (ingredients r)) as Htp.
  unfold useEffect_recipe. cbv zeta.
  destruct (Js.gt (totalPercentage (ingredients r)) 0) eqn:Hgt; simpl.
  - apply gt_true in Hgt.
    repeat (split; [reflexivity|]). split.
    + intro Hsum. split.
      * rewrite Htp. reflexivity.
      * unfold totalDoughWeight. simpl. rewrite Htp.
        apply rescale_roundtrip. exact Hsum.
    + intro Hzero. exfalso. rewrite Htp, Hzero in Hgt.
      exact (Qlt_irrefl 0 Hgt).
  - apply gt_false in Hgt.
    repeat (split; [reflexivity|]). split.
    + intro Hsum. exfalso. rewrite Htp in Hgt.
      exact (Qlt_not_le _ _ Hsum Hgt).
    + intros _. reflexivity.
Qed.

Lemma C10_open_scales_to_1000_witness :
  0 < Spec.sumOfPercentages (ingredients Scenario.sourdough)
  /\ totalDoughWeight (useEffect_recipe Scenario.sourdough) == 1000
  /\ Spec.sumOfPercentages (ingredients Scenario.blank) == 0
  /\ editedRecipe (useEffect_recipe Scenario.blank) = Scenario.blank.
Proof.
  assert (H1 : 0 < Spec.sumOfPercentages (ingredients Scenario.sourdough))
    by reflexivity.
  assert (H2 : Spec.sumOfPercentages (ingredients Scenario.blank) == 0)
    by reflexivity.
  destruct (C10_open_scales_to_1000 Scenario.sourdough)
    as (_ & _ & _ & _ & _ & _ & Hpos & _).
  destruct (C10_open_scales_to_1000 Scenario.blank)
    as (_ & _ & _ & _ & _ & _ & _ & Hzero).
  split; [exact H1|]. split; [exact (proj2 (Hpos H1))|].
  split; [exact H2|]. exact (Hzero H2).
Defined.

End Scaling.


(* ================================================================== *)
(** * Editing the ingredient list *)
(* ================================================================== *)

Section Editing.

Local Open Scope Q_scope.
Import Js RecipeView.

Lemma with_ingredients_same (r : Recipe) : with_ingredients r (ingredients r) = r.
Proof. destruct r. reflexivity. Qed.

Lemma ingredient_of_object (ing : Ingredient) : ingredient_of (object_of ing) = Some ing.
Proof. destruct ing. reflexivity. Qed.

(** The copy [[...editedRecipe.ingredients]] is an [Ingredient[]]. *)
Lemma ingredients_of_copy (ings : list Ingredient) :
  ingredients_of (map (fun ing => Elem (object_of ing)) ings) = Some ings.
Proof.
  induction ings as [|ing rest IH]; cbn [map ingredients_of].
  - reflexivity.
  - rewrite ingredient_of_object, IH. reflexivity.
Qed.

(** An array that ends in an object without a name is not. *)
Lemma ingredients_of_nameless (arr : list (Slot IngredientObject)) (n : nat) (p : option Q) :
  ingredients_of (arr ++ replicate n Hole ++ [Elem (mkObject None p)]) = None.
Proof.
  induction arr as [|slot rest IH]; simpl.
  - destruct n; reflexivity.
  - destruct slot as [o|]; [|reflexivity].
    rewrite IH. destruct (ingredient_of o); reflexivity.
Qed.

Lemma copy_lookup (ings : list Ingredient) (i : nat) :
  map (fun ing => Elem (object_of ing)) ings !! i
  = option_map (fun ing => Elem (object_of ing)) (ings !! i).
Proof.
  revert i. induction ings as [|ing rest IH]; intros [|i]; simpl; try reflexivity.
  apply IH.
Qed.

Lemma copy_insert (ings : list Ingredient) (i : nat) (ing : Ingredient) :
  <[i := Elem (object_of ing)]> (map (fun x => Elem (object_of x)) ings)
  = map (fun x => Elem (object_of x)) (<[i := ing]> ings).
Proof.
  revert i. induction ings as [|x rest IH]; intros [|i]; simpl; try reflexivity.
  f_equal. apply IH.
Qed.

(** What an edit makes of the ingredient it is applied to. *)
Lemma handleIngredientChange_in_range (s : State) (index : Z) (edit : IngredientEdit)
    (ing : Ingredient) :
  ~ Spec.standard (recipe s) ->
  (0 <= index)%Z ->
  ingredients (editedRecipe s) !! Z.to_nat index = Some ing ->
  handleIngredientChange s index edit
  = Normal (SetEditedRecipe
              (with_ingredients (editedRecipe s)
                 (<[Z.to_nat index :=
                      match edit with
                      | EditPercentage value => mkIngredient (ing_name ing) (Math_max 0 value)
                      | EditName value => mkIngredient value (percentage ing)
                      end]> (ingredients (editedRecipe s))))).
Proof.
  intros Hstd Hindex Hlookup.
  unfold handleIngredientChange.
  rewrite (isReadOnly_editable s Hstd). cbv zeta.
  assert (Hlt : (Z.to_nat index < length (ingredients (editedRecipe s)))%nat)
    by (eapply lookup_lt_Some; exact Hlookup).
  unfold array_get, array_set.
  destruct (index <? 0)%Z eqn:Hneg; [apply Z.ltb_lt in Hneg; lia|].
  rewrite copy_lookup, Hlookup. simpl option_map. cbv zeta.
  rewrite length_map.
  destruct (Z.to_nat index <? length (ingredients (editedRecipe s)))%nat eqn:Hin;
    [|apply Nat.ltb_ge in Hin; lia].
  unfold spread, setIngredients.
  destruct edit as [value|value]; simpl obj_name; simpl obj_percentage.
  - change (mkObject (Some (ing_name ing)) (Some (Math_max 0 value)))
      with (object_of (mkIngredient (ing_name ing) (Math_max 0 value))).
    rewrite copy_insert, ingredients_of_copy. reflexivity.
  - change (mkObject (Some value) (Some (percentage ing)))
      with (object_of (mkIngredient value (percentage ing))).
    rewrite copy_insert, ingredients_of_copy. reflexivity.
Qed.

(** A filter whose test holds at every position keeps the whole array. *)
Lemma filter_from_all {A : Type} (p : A -> nat -> bool) (arr : list A) (i : nat) :
  (forall (x : A) (j : nat), (i <= j < i + length arr)%nat -> p x j = true) ->
  filter_from p i arr = arr.
Proof.
  revert i. induction arr as [|x rest IH]; intros i Hall; simpl.
  - reflexivity.
  - rewrite (Hall x i) by (simpl; lia).
    f_equal. apply IH. intros y j Hj. apply Hall. simpl. lia.
Qed.

(** Filtering on [i !== index] removes the element at [index]. *)
Lemma filter_from_delete {A : Type} (arr : list A) (n i : nat) :
  filter_from (fun _ j => index_differs j (Z.of_nat n)) i arr
  = if (i <=? n)%nat then delete (n - i)%nat arr else arr.
Proof.
  revert i. induction arr as [|x rest IH]; intro i; cbn [filter_from].
  - destruct (i <=? n)%nat; reflexivity.
  - rewrite IH. unfold index_differs.
    destruct (Z.eqb_spec (Z.of_nat i) (Z.of_nat n)) as [E|E]; cbn [negb].
    + apply Nat2Z.inj in E. subst i.
      rewrite Nat.leb_refl, Nat.sub_diag.
      replace (S n <=? n)%nat with false by (symmetry; apply Nat.leb_gt; lia).
      reflexivity.
    + destruct (Nat.leb_spec i n) as [F|F].
      * replace (S i <=? n)%nat with true by (symmetry; apply Nat.leb_le; lia).
        replace (n - i)%nat with (S (n - S i)) by lia. reflexivity.
      * replace (S i <=? n)%nat with false by (symmetry; apply Nat.leb_gt; lia).
        reflexivity.
Qed.

Lemma removeIngredient_in_range (s : State) (index : Z) :
  ~ Spec.standard (recipe s) ->
  (0 <= index)%Z ->
  removeIngredient s index
  = Normal (SetEditedRecipe
              (with_ingredients (editedRecipe s)
                 (delete (Z.to_nat index) (ingredients (editedRecipe s))))).
Proof.
  intros Hstd Hindex. unfold removeIngredient.
  rewrite (isReadOnly_editable s Hstd). cbv zeta.
  unfold filter_indexed.
  pose proof (Z2Nat.id index Hindex) as E.
  remember (Z.to_nat index) as n. rewrite <- E.
  rewrite filter_from_delete. cbn [Nat.leb]. rewrite Nat.sub_0_r. reflexivity.
Qed.

Lemma removeIngredient_out_of_range (s : State) (index : Z) :
  ~ Spec.standard (recipe s) ->
  Spec.outOfRange index (ingredients (editedRecipe s)) ->
  removeIngredient s index = Normal (SetEditedRecipe (editedRecipe s)).
Proof.
  intros Hstd Hout. unfold removeIngredient.
  rewrite (isReadOnly_editable s Hstd). cbv zeta.
  unfold filter_indexed. rewrite filter_from_all.
  - rewrite with_ingredients_same. reflexivity.
  - intros _ j Hj. unfold index_differs. apply negb_true_iff, Z.eqb_neq.
    unfold Spec.outOfRange in Hout. lia.
Qed.

(** C3.  On a standard recipe a percentage edit, an addition and a
    removal all return before any state update, for every index and every
    percentage: the edited recipe, and with it every field and the whole
    ingredient sequence, stays as it was. *)
Theorem C3_standard_recipe_is_immutable (s : State) :
  Spec.standard (recipe s) ->
  (forall (index : Z) (newPercentage : Q),
      setIngredientPercentage s index newPercentage = Normal NoUpdate)
  /\ addIngredient s = Normal NoUpdate
  /\ (forall index : Z, removeIngredient s index = Normal NoUpdate)
  /\ commit s NoUpdate = Some s.
Proof.
  intro Hstd. pose proof (isReadOnly_standard s Hstd) as Hro.
  unfold setIngredientPercentage, handleIngredientChange, addIngredient, removeIngredient.
  rewrite Hro. repeat split.
Qed.

Lemma C3_standard_recipe_is_immutable_witness :
  Spec.standard (recipe (useEffect_recipe Scenario.sourdough))
  /\ setIngredientPercentage (useEffect_recipe Scenario.sourdough) 2 80 = Normal NoUpdate
  /\ addIngredient (useEffect_recipe Scenario.sourdough) = Normal NoUpdate
  /\ removeIngredient (useEffect_recipe Scenario.sourdough) 0 = Normal NoUpdate.
Proof.
  assert (H : Spec.standard (recipe (useEffect_recipe Scenario.sourdough)))
    by reflexivity.
  destruct (C3_standard_recipe_is_immutable _ H) as (Hset & Hadd & Hremove & _).
  split; [exact H|]. split; [apply Hset|]. split; [exact Hadd | apply Hremove].
Defined.

(** C4 as stated fails: on the three-ingredient user recipe, index 7 and
    index -1 are out of range, yet neither call throws.  The removal
    returns the recipe as it was; the percentage edit at index 3 stores an
    array with a fourth, nameless entry. *)
Lemma C4_counterexample :
  let s := initialState Scenario.loaf in
  ~ Spec.standard (recipe s)
  /\ Spec.outOfRange 7 (ingredients (editedRecipe s))
  /\ Spec.outOfRange (-1) (ingredients (editedRecipe s))
  /\ Spec.outOfRange 3 (ingredients (editedRecipe s))
  /\ removeIngredient s 7 = Normal (SetEditedRecipe Scenario.loaf)
  /\ removeIngredient s (-1) = Normal (SetEditedRecipe Scenario.loaf)
  /\ fails (setIngredientPercentage s 7 50) = false
  /\ setIngredientPercentage s (-1) 50 = Normal (SetEditedRecipe Scenario.loaf)
  /\ setIngredientPercentage s 3 50
     = Normal (SetEditedRecipeUntyped Scenario.loaf
                 [ Elem (mkObject (Some "White Flour") (Some 90));
                   Elem (mkObject (Some "Water") (Some 75));
                   Elem (mkObject (Some "Salt") (Some 2));
                   Elem (mkObject None (Some 50)) ]).
Proof.
  cbv zeta. unfold Spec.standard, Spec.outOfRange.
  split; [discriminate|].
  split; [right; simpl; lia|]. split; [left; lia|]. split; [right; simpl; lia|].
  repeat split.
Qed.

(** What the unchecked write stores for an index outside the rows: below
    0, and from [2^32 - 1] on, the recipe as it was; in between, an array
    that has grown up to the index and is no [Ingredient[]] any more. *)
Lemma out_of_range_write (s : State) (index : Z) (newPercentage : Q) :
  ~ Spec.standard (recipe s) ->
  Spec.outOfRange index (ingredients (editedRecipe s)) ->
  setIngredientPercentage s index newPercentage
  = if ((index <? 0) || negb (index <? 4294967295))%Z
    then Normal (SetEditedRecipe (editedRecipe s))
    else Normal (SetEditedRecipeUntyped (editedRecipe s)
                   (map (fun ing => Elem (object_of ing)) (ingredients (editedRecipe s))
                    ++ replicate (Z.to_nat index - length (ingredients (editedRecipe s))) Hole
                    ++ [Elem (mkObject None (Some (Math_max 0 newPercentage)))])).
Proof.
  intros Hstd Hout.
  unfold setIngredientPercentage, handleIngredientChange.
  rewrite (isReadOnly_editable s Hstd). cbv zeta.
  unfold array_get, array_set, setIngredients.
  destruct (index <? 0)%Z eqn:Hneg; cbn [orb].
  { rewrite ingredients_of_copy, with_ingredients_same. reflexivity. }
  apply Z.ltb_ge in Hneg.
  assert (Hge : (Z.of_nat (length (ingredients (editedRecipe s))) <= index)%Z)
    by (destruct Hout; lia).
  rewrite copy_lookup.
  rewrite (lookup_ge_None_2 (ingredients (editedRecipe s)) (Z.to_nat index)) by lia.
  cbv zeta. rewrite length_map.
  destruct (Z.to_nat index <? length (ingredients (editedRecipe s)))%nat eqn:Hin;
    [apply Nat.ltb_lt in Hin; lia|].
  destruct (index <? 4294967295)%Z; cbn [negb].
  - simpl. rewrite ingredients_of_nameless. reflexivity.
  - rewrite ingredients_of_copy, with_ingredients_same. reflexivity.
Qed.

(** C4, amended: no bounds are checked and no error is raised.  On a
    recipe that is not standard and an index outside the sequence, the
    removal and the percentage edit both return normally, and the removal
    leaves the recipe unchanged. *)
Theorem C4_out_of_range_is_not_an_error (s : State) (index : Z) (newPercentage : Q) :
  ~ Spec.standard (recipe s) ->
  Spec.outOfRange index (ingredients (editedRecipe s)) ->
  removeIngredient s index = Normal (SetEditedRecipe (editedRecipe s))
  /\ fails (removeIngredient s index) = false
  /\ fails (setIngredientPercentage s index newPercentage) = false
  /\ exists u : Update, setIngredientPercentage s index newPercentage = Normal u.
Proof.
  intros Hstd Hout.
  pose proof (removeIngredient_out_of_range s index Hstd Hout) as Hremove.
  pose proof (out_of_range_write s index newPercentage Hstd Hout) as Hset.
  split; [exact Hremove|]. split; [rewrite Hremove; reflexivity|].
  rewrite Hset.
  destruct ((index <? 0) || negb (index <? 4294967295))%Z;
    (split; [reflexivity | eexists; reflexivity]).
Qed.

Lemma C4_out_of_range_is_not_an_error_witness :
  ~ Spec.standard (recipe (initialState Scenario.loaf))
  /\ Spec.outOfRange 7 (ingredients (editedRecipe (initialState Scenario.loaf)))
  /\ removeIngredient (initialState Scenario.loaf) 7
     = Normal (SetEditedRecipe Scenario.loaf)
  /\ fails (setIngredientPercentage (initialState Scenario.loaf) 7 50) = false.
Proof.
  assert (H1 : ~ Spec.standard (recipe (initialState Scenario.loaf)))
    by (unfold Spec.standard; simpl; discriminate).
  assert (H2 : Spec.outOfRange 7 (ingredients (editedRecipe (initialState Scenario.loaf))))
    by (right; simpl; lia).
  destruct (C4_out_of_range_is_not_an_error (initialState Scenario.loaf) 7 50 H1 H2)
    as (Hremove & _ & Hset & _).
  split; [exact H1|]. split; [exact H2|]. split; [exact Hremove | exact Hset].
Defined.

(** C7 as stated fails: the handler takes no name.  Asked for Salt, a
    catalog ingredient, the entry it appends is Water. *)
Lemma C7_counterexample :
  let s := initialState Scenario.loaf in
  In "Salt" validIngredientNames
  /\ ~ Spec.standard (recipe s)
  /\ addIngredient s
     = Normal (SetEditedRecipe
                 (with_ingredients Scenario.loaf
                    (ingredients Scenario.loaf ++ [mkIngredient "Water" 0])))
  /\ ing_name (mkIngredient "Water" 0) <> "Salt"
  /\ addIngredient s
     <> Normal (SetEditedRecipe
                  (with_ingredients Scenario.loaf
                     (ingredients Scenario.loaf ++ [mkIngredient "Salt" 0]))).
Proof.
  cbv zeta. split; [simpl; tauto|].
  split; [unfold Spec.standard; simpl; discriminate|].
  split; [reflexivity|]. split; discriminate.
Qed.

(** C7, amended: the handler has no name parameter.  On a recipe that is
    not standard it appends one entry at the end of the sequence, named
    Water (a catalog name) with percentage 0, and changes nothing else. *)
Theorem C7_add_appends_water (s : State) :
  ~ Spec.standard (recipe s) ->
  In "Water" validIngredientNames
  /\ addIngredient s
     = Normal (SetEditedRecipe
                 (with_ingredients (editedRecipe s)
                    (ingredients (editedRecipe s) ++ [mkIngredient "Water" 0]))).
Proof.
  intro Hstd. split; [simpl; tauto|].
  unfold addIngredient. rewrite (isReadOnly_editable s Hstd). reflexivity.
Qed.

Lemma C7_add_appends_water_witness :
  ~ Spec.standard (recipe (initialState Scenario.blank))
  /\ addIngredient (initialState Scenario.blank)
     = Normal (SetEditedRecipe
                 (with_ingredients Scenario.blank [mkIngredient "Water" 0])).
Proof.
  assert (H : ~ Spec.standard (recipe (initialState Scenario.blank)))
    by (unfold Spec.standard; simpl; discriminate).
  split; [exact H|].
  exact (proj2 (C7_add_appends_water (initialState Scenario.blank) H)).
Defined.

(** The editor reaches an ingredient of another name in two steps: add,
    then pick the name in the new row. *)
Lemma add_then_rename (s : State) (n : string) :
  ~ Spec.standard (recipe s) ->
  handleIngredientChange
    (mkState (recipe s)
       (with_ingredients (editedRecipe s)
          (ingredients (editedRecipe s) ++ [mkIngredient "Water" 0])))
    (Z.of_nat (length (ingredients (editedRecipe s)))) (EditName n)
  = Normal (SetEditedRecipe
              (with_ingredients (editedRecipe s)
                 (ingredients (editedRecipe s) ++ [mkIngredient n 0]))).
Proof.
  intro Hstd.
  rewrite (handleIngredientChange_in_range _ _ _ (mkIngredient "Water" 0)).
  - simpl. rewrite Nat2Z.id.
    replace (length (ingredients (editedRecipe s)))
      with (length (ingredients (editedRecipe s)) + 0)%nat at 1 by lia.
    rewrite insert_app_r. reflexivity.
  - exact Hstd.
  - lia.
  - simpl. rewrite Nat2Z.id. apply list_lookup_middle. reflexivity.
Qed.

End Editing.


(* ================================================================== *)
(** * The recipe list and the per-user store *)
(* ================================================================== *)

Section Store.

Import Js App.

(** Goes through the recipes of a concrete list one by one. *)
Ltac each_recipe Hin :=
  simpl in Hin;
  repeat (destruct Hin as [<-|Hin]; [first [reflexivity | discriminate]|]);
  destruct Hin.




(** Deleting by an id that no recipe has leaves the list as it is. *)
Lemma delete_absent (recipeId : string) (l : list Recipe) :
  (forall r : Recipe, In r l -> recipe_id r <> recipeId) ->
  List.filter (fun r => negb (String.eqb (recipe_id r) recipeId)) l = l.
Proof.
  induction l as [|r rest IH]; intro Habsent; simpl.
  - reflexivity.
  - destruct (String.eqb_spec (recipe_id r) recipeId) as [E|E]; simpl.
    + exfalso. apply (Habsent r); [left; reflexivity | exact E].
    + f_equal. apply IH. intros r' Hin. apply Habsent. right. exact Hin.
Qed.

(** Deleting by an id that only standard recipes have does not change
    the user's recipes. *)
Lemma delete_outside_user_set (recipeId : string) (l : list Recipe) :
  (forall r : Recipe, In r l -> recipe_id r = recipeId -> Spec.standard r) ->
  nonStandard (List.filter (fun r => negb (String.eqb (recipe_id r) recipeId)) l)
  = nonStandard l.
Proof.
  unfold nonStandard.
  induction l as [|r rest IH]; intro Hstd; simpl.
  - reflexivity.
  - assert (IH' := IH (fun r' Hin => Hstd r' (or_intror Hin))).
    destruct (String.eqb_spec (recipe_id r) recipeId) as [E|E]; simpl.
    + rewrite (Hstd r (or_introl eq_refl) E). simpl. exact IH'.
    + rewrite IH'. reflexivity.
Qed.

Lemma load_saved (storage : gmap string (list Recipe)) (l : list Recipe) (u : User) :
  loadUserRecipes (saveUserRecipes storage l (Some u)) u = l.
Proof.
  unfold loadUserRecipes, saveUserRecipes. rewrite lookup_insert_eq. reflexivity.
Qed.

(** Writing back what was read changes no user's persisted list. *)
Lemma load_rewritten (storage : gmap string (list Recipe)) (u u' : User) :
  loadUserRecipes (saveUserRecipes storage (loadUserRecipes storage u) (Some u)) u'
  = loadUserRecipes storage u'.
Proof.
  unfold loadUserRecipes, saveUserRecipes.
  destruct (decide (storageKey u = storageKey u')) as [E|E].
  - rewrite <- E, lookup_insert_eq. reflexivity.
  - rewrite lookup_insert_ne by exact E. reflexivity.
Qed.







(** What a reply writes, whenever it arrives. *)
Lemma handleImportSuccessAfter_store (captured st st' : State) (data : ImportedRecipe)
    (now : N) :
  handleImportSuccessAfter captured st data now = Normal st' ->
  user st' = user st
  /\ localStorage st'
     = saveUserRecipes (localStorage st) (nonStandard (recipes st')) (user captured)
  /\ (user captured = None -> recipes st' = recipes st).
Proof.
  unfold handleImportSuccessAfter.
  destruct (user captured) as [u|] eqn:Hu; intros [= <-].
  - cbn [navigate setStorage setRecipes user recipes localStorage].
    rewrite ?Hu. split; [reflexivity|]. split; [reflexivity|]. discriminate.
  - split; [reflexivity|]. split; reflexivity.
Qed.

(** What a click handler writes. *)
Lemma handleSave_store (st st' : State) (editedRecipe : Recipe) :
  handleSave st editedRecipe = Normal st' ->
  user st' = user st
  /\ localStorage st'
     = saveUserRecipes (localStorage st) (nonStandard (recipes st')) (user st)
  /\ (user st = None -> recipes st' = recipes st).
Proof.
  unfold handleSave, handleSaveRecipe.
  destruct (user st) as [u|] eqn:Hu; cbn [bind]; intros [= <-].
  - cbn [alert setStorage setRecipes user recipes localStorage].
    rewrite ?Hu. split; [reflexivity|]. split; [reflexivity|]. discriminate.
  - cbn [alert user recipes localStorage]. rewrite ?Hu.
    split; [reflexivity|]. split; reflexivity.
Qed.

Lemma handleDelete_store (st st' : State) (r : Recipe) (confirmed : bool) :
  handleDelete st r confirmed = Normal st' ->
  st' = st
  \/ (user st' = user st
      /\ user st <> None
      /\ localStorage st'
         = saveUserRecipes (localStorage st) (nonStandard (recipes st')) (user st)).
Proof.
  unfold handleDelete, handleDeleteRecipe.
  destruct confirmed; [|intros [= <-]; left; reflexivity].
  destruct (user st) as [u|] eqn:Hu; intros [= <-]; [|left; reflexivity].
  right. cbn [handleBackToLibrary navigate setStorage setRecipes user recipes localStorage].
  rewrite ?Hu. split; [reflexivity|]. split; [discriminate | reflexivity].
Qed.




(** C8 as stated fails: nothing in the deletion fails.  In a signed-in
    session no recipe has the id user-404, and std-1 is a standard recipe;
    both deletions complete normally, and the second one takes the
    standard recipe off the list on screen. *)
Lemma C8_counterexample :
  let st := Scenario.session in
  (forall r : Recipe, In r (recipes st) -> recipe_id r <> "user-404")
  /\ fails (handleDeleteRecipe st "user-404") = false
  /\ (forall r : Recipe, In r (recipes st) -> recipe_id r = "std-1" -> Spec.standard r)
  /\ fails (handleDeleteRecipe st "std-1") = false
  /\ exists st' : State,
       handleDeleteRecipe st "std-1" = Normal st'
       /\ map recipe_id (recipes st') = ["std-2"; "std-3"; "std-4"; "user-1"].
Proof.
  cbv zeta. split; [|split; [|split; [|split]]].
  - intros r Hin. each_recipe Hin.
  - reflexivity.
  - intros r Hin. each_recipe Hin.
  - reflexivity.
  - eexists. split; reflexivity.
Qed.

(** C8, amended: a deletion never fails.  For every id it returns
    normally and shows no message; with nobody signed in it changes
    nothing.  With a user signed in and an id that belongs to no recipe of
    the user's set, which covers an id that is absent and an id of a
    standard recipe, the non-standard recipes on screen are written under
    the user's key, all of them: when the list persisted for the user
    agreed with the screen before the call, every user's persisted list
    reads back as before.  When the id is absent from the whole list, the
    list on screen is unchanged as well. *)
Theorem C8_delete_outside_user_set (st : State) (recipeId : string) :
  (exists st' : State,
      handleDeleteRecipe st recipeId = Normal st' /\ alerts st' = alerts st)
  /\ fails (handleDeleteRecipe st recipeId) = false
  /\ (user st = None -> handleDeleteRecipe st recipeId = Normal st)
  /\ (forall (u : User) (st' : State),
        user st = Some u ->
        handleDeleteRecipe st recipeId = Normal st' ->
        (forall r : Recipe, In r (recipes st) -> recipe_id r = recipeId -> Spec.standard r) ->
        localStorage st' = <[storageKey u := nonStandard (recipes st)]> (localStorage st)
        /\ (loadUserRecipes (localStorage st) u = nonStandard (recipes st) ->
            forall u' : User,
              loadUserRecipes (localStorage st') u'
              = loadUserRecipes (localStorage st) u'))
  /\ (forall st' : State,
        handleDeleteRecipe st recipeId = Normal st' ->
        (forall r : Recipe, In r (recipes st) -> recipe_id r <> recipeId) ->
        recipes st' = recipes st).
Proof.
  unfold handleDeleteRecipe.
  destruct (user st) as [u0|] eqn:Hu; cbv zeta.
  - split; [eexists; split; reflexivity|]. split; [reflexivity|].
    split; [discriminate|]. split.
    + intros u st' [= <-] H Houtside. injection H as <-.
      cbn [handleBackToLibrary navigate setStorage setRecipes localStorage user recipes].
      rewrite Hu, delete_outside_user_set by exact Houtside.
      split; [reflexivity|].
      intros Hsynced u'. rewrite <- Hsynced. apply load_rewritten.
    + intros st' H Habsent. injection H as <-.
      cbn [handleBackToLibrary navigate setStorage setRecipes recipes].
      apply delete_absent. exact Habsent.
  - split; [eexists; split; reflexivity|]. split; [reflexivity|].
    split; [reflexivity|]. split.
    + intros u st' Hsome. discriminate Hsome.
    + intros st' H _. injection H as <-. reflexivity.
Qed.

Lemma C8_delete_outside_user_set_witness :
  user Scenario.session = Some Scenario.baker
  /\ (forall r : Recipe,
        In r (recipes Scenario.session) -> recipe_id r = "user-404" -> Spec.standard r)
  /\ loadUserRecipes (localStorage Scenario.session) Scenario.baker
     = nonStandard (recipes Scenario.session)
  /\ exists st' : State,
       handleDeleteRecipe Scenario.session "user-404" = Normal st'
       /\ alerts st' = alerts Scenario.session
       /\ loadUserRecipes (localStorage st') Scenario.baker
          = loadUserRecipes (localStorage Scenario.session) Scenario.baker.
Proof.
  assert (H0 : user Scenario.session = Some Scenario.baker) by reflexivity.
  assert (H1 : loadUserRecipes (localStorage Scenario.session) Scenario.baker
               = nonStandard (recipes Scenario.session)) by reflexivity.
  assert (H2 : forall r : Recipe,
             In r (recipes Scenario.session) -> recipe_id r = "user-404" ->
             Spec.standard r).
  { intros r Hin. each_recipe Hin. }
  split; [exact H0|]. split; [exact H2|]. split; [exact H1|].
  eexists. split; [reflexivity|]. split; [reflexivity|].
  apply (proj1 (proj2 (proj2 (proj2
           (C8_delete_outside_user_set Scenario.session "user-404"))))
           Scenario.baker _ H0 eq_refl H2).
  exact H1.
Defined.



(** The editor's Save button adds its own message after the callback
    returns, signed in or not. *)
Lemma handleSave_signed_out (st : State) (editedRecipe : Recipe) :
  user st = None ->
  handleSave st editedRecipe
  = Normal (alert (alert st "Please log in to save changes.") "Recipe saved!").
Proof.
  intro Hu. unfold handleSave, handleSaveRecipe. rewrite Hu. reflexivity.
Qed.

End Store.


(* ================================================================== *)
(** * Accepting the output of the text-to-recipe service *)
(* ================================================================== *)

Section Adapter.

Local Open Scope Q_scope.
Import Js GeminiService.

(** The check on an object, as one conditional. *)
Lemma validate_object (members : list (string * Json)) :
  validate (JObject members)
  = if falsy (member "name" members) then Throw invalid_format
    else if typeof_is_not_number (member "totalFlourGrams" members) then Throw invalid_format
    else if negb (Array_isArray (member "ingredients" members)) then Throw invalid_format
    else Normal (JObject members).
Proof. reflexivity. Qed.

(** Anything but an object fails the check: [null] on the property read,
    the others for want of a [name]. *)
Lemma validate_not_object (j : Json) :
  (forall members, j <> JObject members) -> fails (validate j) = true.
Proof.
  intro H. destruct j; try reflexivity.
  exfalso. exact (H members eq_refl).
Qed.

(** A value that passes is returned as it came. *)
Lemma validate_returns_input (j j' : Json) :
  validate j = Normal j' -> j' = j.
Proof.
  destruct j; try discriminate.
  rewrite validate_object.
  destruct (falsy _); [discriminate|].
  destruct (typeof_is_not_number _); [discriminate|].
  destruct (negb _); [discriminate|].
  intros [= <-]. reflexivity.
Qed.

(** Whatever goes wrong inside the [try] block comes out as the one
    message meant for the user. *)
Lemma parseRecipeFromText_outcome (j : Json) :
  parseRecipeFromText true (ResponseText (Some j))
  = if fails (validate j) then Throw failed_to_parse else Normal j.
Proof.
  unfold parseRecipeFromText, try_catch. cbn [negb].
  destruct (validate j) as [j'|e] eqn:E; cbn [fails].
  - rewrite (validate_returns_input j j' E). reflexivity.
  - reflexivity.
Qed.

(** The contract of the specification admits the well-formed output, so
    it is not vacuous, and the code accepts that output too. *)
Lemma wellFormed_accepted :
  Spec.contract Scenario.wellFormed = true
  /\ parseRecipeFromText true (ResponseText (Some Scenario.wellFormed))
     = Normal Scenario.wellFormed.
Proof. split; reflexivity. Qed.

(** C5 as stated fails: an output with a flour weight of -5 and a
    percentage of -3 violates the contract, and is accepted as it is. *)
Lemma C5_counterexample :
  Spec.contract Scenario.negativeAmounts = false
  /\ parseRecipeFromText true (ResponseText (Some Scenario.negativeAmounts))
     = Normal Scenario.negativeAmounts
  /\ fails (parseRecipeFromText true (ResponseText (Some Scenario.negativeAmounts)))
     = false.
Proof. repeat split. Qed.

(** C5, amended to what is checked.  The output is rejected with the
    parse error, and never altered, when it is not an object, when its
    name is missing or empty, when its flour weight is not a number, or
    when its ingredients are not an array; the output with an empty name,
    1000 g of flour and no ingredient is rejected.  An object with a
    non-empty name, a numeric flour weight of any sign and an array of
    ingredients of any content is accepted as it is. *)
Theorem C5_adapter_output_check (j : Json) :
  (parseRecipeFromText true (ResponseText (Some j)) = Normal j
   \/ parseRecipeFromText true (ResponseText (Some j)) = Throw failed_to_parse)
  /\ ((forall members, j <> JObject members) ->
        parseRecipeFromText true (ResponseText (Some j)) = Throw failed_to_parse)
  /\ (forall members : list (string * Json),
        j = JObject members ->
        member "name" members = None \/ member "name" members = Some (JString "") ->
        parseRecipeFromText true (ResponseText (Some j)) = Throw failed_to_parse)
  /\ (forall members : list (string * Json),
        j = JObject members ->
        (forall q : Q, member "totalFlourGrams" members <> Some (JNumber q)) ->
        parseRecipeFromText true (ResponseText (Some j)) = Throw failed_to_parse)
  /\ (forall members : list (string * Json),
        j = JObject members ->
        (forall items : list Json, member "ingredients" members <> Some (JArray items)) ->
        parseRecipeFromText true (ResponseText (Some j)) = Throw failed_to_parse)
  /\ (forall (members : list (string * Json)) (name : string) (grams : Q)
             (items : list Json),
        j = JObject members ->
        member "name" members = Some (JString name) -> name <> "" ->
        member "totalFlourGrams" members = Some (JNumber grams) ->
        member "ingredients" members = Some (JArray items) ->
        parseRecipeFromText true (ResponseText (Some j)) = Normal j)
  /\ parseRecipeFromText true (ResponseText (Some Scenario.emptyName))
     = Throw failed_to_parse.
Proof.
  rewrite parseRecipeFromText_outcome.
  split; [destruct (fails (validate j)); [right|left]; reflexivity|].
  split; [intro H; rewrite (validate_not_object j H); reflexivity|].
  split; [|split; [|split; [|split; [|reflexivity]]]].
  - intros members -> Hname. rewrite validate_object.
    destruct Hname as [-> | ->]; reflexivity.
  - intros members -> Hgrams. rewrite validate_object.
    destruct (falsy _); [reflexivity|].
    destruct (member "totalFlourGrams" members) as [[]|]; try reflexivity.
    exfalso. exact (Hgrams q eq_refl).
  - intros members -> Hitems. rewrite validate_object.
    destruct (falsy _); [reflexivity|].
    destruct (typeof_is_not_number _); [reflexivity|].
    destruct (member "ingredients" members) as [[]|]; try reflexivity.
    exfalso. exact (Hitems items eq_refl).
  - intros members name grams items -> Hname Hnonempty Hgrams Hitems.
    rewrite validate_object, Hname, Hgrams, Hitems. cbn [falsy].
    apply String.eqb_neq in Hnonempty. rewrite Hnonempty. reflexivity.
Qed.

Lemma C5_adapter_output_check_witness :
  member "name" [ ("name", JString ""); ("totalFlourGrams", JNumber 1000);
                  ("ingredients", JArray []) ]
  = Some (JString "")
  /\ parseRecipeFromText true (ResponseText (Some Scenario.emptyName))
     = Throw failed_to_parse.
Proof.
  split; [reflexivity|].
  apply (proj1 (proj2 (proj2 (C5_adapter_output_check Scenario.emptyName))) _ eq_refl).
  right. reflexivity.
Defined.

(** The other ways out of [parseRecipeFromText]: no API key, a failed
    request, a reply that is not JSON. *)
Lemma parseRecipeFromText_failures :
  (forall response, parseRecipeFromText false response = Throw api_key_missing)
  /\ (forall e, parseRecipeFromText true (Rejected e) = Throw failed_to_parse)
  /\ parseRecipeFromText true (ResponseText None) = Throw failed_to_parse.
Proof. repeat split. Qed.

End Adapter.


(* ================================================================== *)
(** * The scenarios in binary64 arithmetic *)
(* ================================================================== *)

Section Rounding.

Local Open Scope float_scope.
Import Binary64.

(** The numbers of the two scaling scenarios are exact in doubles. *)
Lemma binary64_scenarios :
  totalDoughWeight loaf 1000 = 1670
  /\ newTotalFlourGrams 835 loaf = 500
  /\ ingredientGrams 75 (newTotalFlourGrams 835 loaf) = 375.
Proof. vm_compute. repeat split. Qed.

(** Opened in the editor, [std-3] weighs the double just below 1000,
    which the view prints with [toFixed(0)]: the 1000 g of the rational
    model holds up to rounding. *)
Lemma binary64_open_sandwich :
  totalDoughWeight sandwich (newTotalFlourGrams 1000 sandwich) = 0x1.f3fffffffffffp+9
  /\ next_up (totalDoughWeight sandwich (newTotalFlourGrams 1000 sandwich)) = 1000.
Proof. vm_compute. repeat split. Qed.

End Rounding.


(* ================================================================== *)
(** * Editing in range and what it does to the dough *)
(* ================================================================== *)

Section RowEdits.

Local Open Scope Q_scope.
Import Js RecipeView.

Lemma sum_app (l1 l2 : list Ingredient) :
  Spec.sumOfPercentages (l1 ++ l2)
  == Spec.sumOfPercentages l1 + Spec.sumOfPercentages l2.
Proof.
  induction l1 as [|ing rest IH]; simpl.
  - ring.
  - rewrite IH. ring.
Qed.

Lemma sum_insert (l : list Ingredient) (i : nat) (old new : Ingredient) :
  l !! i = Some old ->
  Spec.sumOfPercentages (<[i := new]> l)
  == Spec.sumOfPercentages l - percentage old + percentage new.
Proof.
  revert i. induction l as [|ing rest IH]; intros [|i] H; simpl in *; try discriminate.
  - injection H as ->. ring.
  - rewrite (IH i H). ring.
Qed.

Lemma sum_delete (l : list Ingredient) (i : nat) (old : Ingredient) :
  l !! i = Some old ->
  Spec.sumOfPercentages (delete i l) == Spec.sumOfPercentages l - percentage old.
Proof.
  revert i. induction l as [|ing rest IH]; intros [|i] H; simpl in *; try discriminate.
  - injection H as ->. ring.
  - rewrite (IH i H). ring.
Qed.

(** The dough weight of a state, through the recursive sum. *)
Lemma totalDoughWeight_sum (s : State) :
  totalDoughWeight s
  == (Spec.sumOfPercentages (ingredients (editedRecipe s)) / 100)
     * totalFlourGrams (editedRecipe s).
Proof.
  unfold totalDoughWeight. cbv zeta. rewrite totalPercentage_sum. reflexivity.
Qed.

(** X1.  A percentage edit on a row of the table of an editable recipe
    replaces that row's percentage by the value clamped at 0 and keeps its
    name; every other row, the number of rows and the flour weight stay;
    the dough weight moves by the change in percentage times a hundredth
    of the flour weight. *)
Theorem X1_percentage_edit_in_range (s : State) (index : Z) (p : Q) (ing : Ingredient) :
  ~ Spec.standard (recipe s) ->
  (0 <= index)%Z ->
  ingredients (editedRecipe s) !! Z.to_nat index = Some ing ->
  exists r' : Recipe,
    setIngredientPercentage s index p = Normal (SetEditedRecipe r')
    /\ ingredients r' !! Z.to_nat index
       = Some (mkIngredient (ing_name ing) (Math_max 0 p))
    /\ (forall j : nat,
          j <> Z.to_nat index ->
          ingredients r' !! j = ingredients (editedRecipe s) !! j)
    /\ length (ingredients r') = length (ingredients (editedRecipe s))
    /\ totalFlourGrams r' = totalFlourGrams (editedRecipe s)
    /\ totalDoughWeight (mkState (recipe s) r')
       == totalDoughWeight s
          + ((Math_max 0 p - percentage ing) / 100) * totalFlourGrams (editedRecipe s).
Proof.
  intros Hstd Hindex Hlookup.
  eexists. split.
  { unfold setIngredientPercentage.
    apply (handleIngredientChange_in_range s index _ ing Hstd Hindex Hlookup). }
  cbn [with_ingredients ingredients totalFlourGrams].
  pose proof (lookup_lt_Some _ _ _ Hlookup) as Hlt.
  split; [apply list_lookup_insert_eq; exact Hlt|].
  split; [intros j Hj; apply list_lookup_insert_ne; congruence|].
  split; [apply length_insert|].
  split; [reflexivity|].
  rewrite !totalDoughWeight_sum. cbn [editedRecipe ingredients totalFlourGrams].
  rewrite (sum_insert _ _ ing (mkIngredient (ing_name ing) (Math_max 0 p)) Hlookup).
  cbn [percentage with_ingredients totalFlourGrams]. field.
Qed.

Lemma X1_percentage_edit_in_range_witness :
  ~ Spec.standard (recipe (initialState Scenario.loaf))
  /\ (0 <= 1)%Z
  /\ ingredients (editedRecipe (initialState Scenario.loaf)) !! Z.to_nat 1
     = Some Scenario.water
  /\ exists r' : Recipe,
       setIngredientPercentage (initialState Scenario.loaf) 1 (-20)
       = Normal (SetEditedRecipe r')
       /\ ingredients r' !! Z.to_nat 1 = Some (mkIngredient "Water" (Math_max 0 (-20))).
Proof.
  assert (H1 : ~ Spec.standard (recipe (initialState Scenario.loaf)))
    by (unfold Spec.standard; simpl; discriminate).
  assert (H2 : (0 <= 1)%Z) by lia.
  assert (H3 : ingredients (editedRecipe (initialState Scenario.loaf)) !! Z.to_nat 1
               = Some Scenario.water) by reflexivity.
  destruct (X1_percentage_edit_in_range (initialState Scenario.loaf) 1 (-20)
              Scenario.water H1 H2 H3) as (r' & Hrun & Hrow & _).
  split; [exact H1|]. split; [exact H2|]. split; [exact H3|].
  exists r'. split; [exact Hrun | exact Hrow].
Defined.

Lemma percentages_rename (l : list Ingredient) (i : nat) (n : string) (ing : Ingredient) :
  l !! i = Some ing ->
  map percentage (<[i := mkIngredient n (percentage ing)]> l) = map percentage l.
Proof.
  revert i. induction l as [|x rest IH]; intros [|i] H; simpl in *; try discriminate.
  - injection H as ->. reflexivity.
  - f_equal. apply IH. exact H.
Qed.

(** The sum reads the percentages only. *)
Lemma reduce_by_percentages (l : list Ingredient) (acc : Q) :
  fold_left (fun a ing => a + percentage ing) l acc
  = fold_left Qplus (map percentage l) acc.
Proof.
  revert acc. induction l as [|x rest IH]; intro acc; simpl; [reflexivity | apply IH].
Qed.

(** X2.  Picking another name for a row of an editable recipe changes
    that row's name only: its percentage, the other rows, the flour weight
    and the dough weight are as before. *)
Theorem X2_rename_keeps_amounts (s : State) (index : Z) (n : string) (ing : Ingredient) :
  ~ Spec.standard (recipe s) ->
  (0 <= index)%Z ->
  ingredients (editedRecipe s) !! Z.to_nat index = Some ing ->
  exists r' : Recipe,
    handleIngredientChange s index (EditName n) = Normal (SetEditedRecipe r')
    /\ ingredients r' !! Z.to_nat index = Some (mkIngredient n (percentage ing))
    /\ map percentage (ingredients r') = map percentage (ingredients (editedRecipe s))
    /\ (forall j : nat,
          j <> Z.to_nat index ->
          ingredients r' !! j = ingredients (editedRecipe s) !! j)
    /\ totalFlourGrams r' = totalFlourGrams (editedRecipe s)
    /\ totalDoughWeight (mkState (recipe s) r') = totalDoughWeight s.
Proof.
  intros Hstd Hindex Hlookup.
  eexists. split.
  { apply (handleIngredientChange_in_range s index _ ing Hstd Hindex Hlookup). }
  cbn [with_ingredients ingredients totalFlourGrams].
  pose proof (lookup_lt_Some _ _ _ Hlookup) as Hlt.
  pose proof (percentages_rename _ _ n ing Hlookup) as Hmap.
  split; [apply list_lookup_insert_eq; exact Hlt|].
  split; [exact Hmap|].
  split; [intros j Hj; apply list_lookup_insert_ne; congruence|].
  split; [reflexivity|].
  unfold totalDoughWeight, totalPercentage, reduce.
  cbn [editedRecipe with_ingredients ingredients totalFlourGrams].
  rewrite !reduce_by_percentages, Hmap. reflexivity.
Qed.

Lemma X2_rename_keeps_amounts_witness :
  ~ Spec.standard (recipe (initialState Scenario.loaf))
  /\ (0 <= 1)%Z
  /\ ingredients (editedRecipe (initialState Scenario.loaf)) !! Z.to_nat 1
     = Some Scenario.water
  /\ exists r' : Recipe,
       handleIngredientChange (initialState Scenario.loaf) 1 (EditName "Milk")
       = Normal (SetEditedRecipe r')
       /\ totalDoughWeight (mkState Scenario.loaf r')
          = totalDoughWeight (initialState Scenario.loaf).
Proof.
  assert (H1 : ~ Spec.standard (recipe (initialState Scenario.loaf)))
    by (unfold Spec.standard; simpl; discriminate).
  assert (H2 : (0 <= 1)%Z) by lia.
  assert (H3 : ingredients (editedRecipe (initialState Scenario.loaf)) !! Z.to_nat 1
               = Some Scenario.water) by reflexivity.
  destruct (X2_rename_keeps_amounts (initialState Scenario.loaf) 1 "Milk"
              Scenario.water H1 H2 H3) as (r' & Hrun & _ & _ & _ & _ & Hweight).
  split; [exact H1|]. split; [exact H2|]. split; [exact H3|].
  exists r'. split; [exact Hrun | exact Hweight].
Defined.

(** X3.  Removing a row of the table of an editable recipe takes out
    that row and no other: the rows before it and after it follow each
    other in their order, the flour weight stays, and the dough weight
    drops by the grams of the removed row. *)
Theorem X3_remove_in_range (s : State) (index : Z) (ing : Ingredient) :
  ~ Spec.standard (recipe s) ->
  (0 <= index)%Z ->
  ingredients (editedRecipe s) !! Z.to_nat index = Some ing ->
  exists r' : Recipe,
    removeIngredient s index = Normal (SetEditedRecipe r')
    /\ ingredients r'
       = take (Z.to_nat index) (ingredients (editedRecipe s))
         ++ drop (S (Z.to_nat index)) (ingredients (editedRecipe s))
    /\ S (length (ingredients r')) = length (ingredients (editedRecipe s))
    /\ totalFlourGrams r' = totalFlourGrams (editedRecipe s)
    /\ totalDoughWeight (mkState (recipe s) r')
       == totalDoughWeight s - ingredientGrams s ing.
Proof.
  intros Hstd Hindex Hlookup.
  eexists. split; [apply (removeIngredient_in_range s index Hstd Hindex)|].
  cbn [with_ingredients ingredients totalFlourGrams].
  pose proof (lookup_lt_Some _ _ _ Hlookup) as Hlt.
  split; [apply delete_take_drop|].
  split; [rewrite length_delete by (rewrite Hlookup; eexists; reflexivity); lia|].
  split; [reflexivity|].
  rewrite !totalDoughWeight_sum. unfold ingredientGrams.
  cbn [editedRecipe with_ingredients ingredients totalFlourGrams].
  rewrite (sum_delete _ _ ing Hlookup). field.
Qed.

Lemma X3_remove_in_range_witness :
  ~ Spec.standard (recipe (initialState Scenario.loaf))
  /\ (0 <= 1)%Z
  /\ ingredients (editedRecipe (initialState Scenario.loaf)) !! Z.to_nat 1
     = Some Scenario.water
  /\ exists r' : Recipe,
       removeIngredient (initialState Scenario.loaf) 1 = Normal (SetEditedRecipe r')
       /\ ingredients r' = [mkIngredient "White Flour" 90; mkIngredient "Salt" 2].
Proof.
  assert (H1 : ~ Spec.standard (recipe (initialState Scenario.loaf)))
    by (unfold Spec.standard; simpl; discriminate).
  assert (H2 : (0 <= 1)%Z) by lia.
  assert (H3 : ingredients (editedRecipe (initialState Scenario.loaf)) !! Z.to_nat 1
               = Some Scenario.water) by reflexivity.
  destruct (X3_remove_in_range (initialState Scenario.loaf) 1 Scenario.water H1 H2 H3)
    as (r' & Hrun & Hrows & _).
  split; [exact H1|]. split; [exact H2|]. split; [exact H3|].
  exists r'. split; [exact Hrun | exact Hrows].
Defined.

(** X4.  The row that Add Ingredient appends to an editable recipe weighs
    nothing: the dough weight is as before, and removing the new row gives
    back the recipe as it was. *)
Theorem X4_added_row_weighs_nothing (s : State) :
  ~ Spec.standard (recipe s) ->
  exists r' : Recipe,
    addIngredient s = Normal (SetEditedRecipe r')
    /\ length (ingredients r') = S (length (ingredients (editedRecipe s)))
    /\ totalDoughWeight (mkState (recipe s) r') == totalDoughWeight s
    /\ removeIngredient (mkState (recipe s) r')
         (Z.of_nat (length (ingredients (editedRecipe s))))
       = Normal (SetEditedRecipe (editedRecipe s)).
Proof.
  intro Hstd. eexists. split.
  { unfold addIngredient. rewrite (isReadOnly_editable s Hstd). reflexivity. }
  cbv zeta. cbn [with_ingredients ingredients].
  split; [rewrite length_app; simpl; lia|].
  split.
  - rewrite !totalDoughWeight_sum.
    cbn [editedRecipe with_ingredients ingredients totalFlourGrams].
    rewrite sum_app. simpl. field.
  - rewrite removeIngredient_in_range by (try exact Hstd; lia).
    cbn [editedRecipe with_ingredients ingredients].
    rewrite Nat2Z.id.
    rewrite (delete_middle (ingredients (editedRecipe s)) [] (mkIngredient "Water" 0)).
    rewrite app_nil_r. destruct (editedRecipe s). reflexivity.
Qed.

Lemma X4_added_row_weighs_nothing_witness :
  ~ Spec.standard (recipe (initialState Scenario.loaf))
  /\ exists r' : Recipe,
       addIngredient (initialState Scenario.loaf) = Normal (SetEditedRecipe r')
       /\ totalDoughWeight (mkState Scenario.loaf r') == 1670
       /\ removeIngredient (mkState Scenario.loaf r') 3
          = Normal (SetEditedRecipe Scenario.loaf).
Proof.
  assert (H1 : ~ Spec.standard (recipe (initialState Scenario.loaf)))
    by (unfold Spec.standard; simpl; discriminate).
  destruct (X4_added_row_weighs_nothing (initialState Scenario.loaf) H1)
    as (r' & Hrun & _ & Hweight & Hback).
  split; [exact H1|].
  exists r'. split; [exact Hrun|]. split; [|exact Hback].
  rewrite Hweight. reflexivity.
Defined.

(** X5.  After a dough-weight edit on an editable recipe whose percentages
    sum to more than 0, an ingredient weighs its share of the target:
    its percentage over the sum of the percentages, times the target. *)
Theorem X5_rescale_gives_shares (s : State) (d : Q) :
  ~ Spec.standard (recipe s) ->
  0 < Spec.sumOfPercentages (ingredients (editedRecipe s)) ->
  0 <= d ->
  exists r' : Recipe,
    handleTotalDoughWeightChange s d = Normal (SetEditedRecipe r')
    /\ forall ing : Ingredient,
         ingredientGrams (mkState (recipe s) r') ing
         == (percentage ing / Spec.sumOfPercentages (ingredients (editedRecipe s))) * d.
Proof.
  intros Hstd Hsum Hd.
  pose proof (totalPercentage_sum (ingredients (editedRecipe s))) as Htp.
  assert (Hgt : gt (totalPercentage (ingredients (editedRecipe s))) 0 = true).
  { apply gt_true. rewrite Htp. exact Hsum. }
  eexists. split.
  { unfold handleTotalDoughWeightChange.
    rewrite (isReadOnly_editable s Hstd). cbv zeta. rewrite Hgt. reflexivity. }
  intro ing. unfold ingredientGrams.
  cbn [editedRecipe with_totalFlourGrams totalFlourGrams].
  rewrite Htp, (Math_max_of_nonneg d Hd). field.
  intro E. rewrite E in Hsum. exact (Qlt_irrefl 0 Hsum).
Qed.

Lemma X5_rescale_gives_shares_witness :
  ~ Spec.standard (recipe (initialState Scenario.loaf))
  /\ 0 < Spec.sumOfPercentages (ingredients (editedRecipe (initialState Scenario.loaf)))
  /\ 0 <= 334
  /\ exists r' : Recipe,
       handleTotalDoughWeightChange (initialState Scenario.loaf) 334
       = Normal (SetEditedRecipe r')
       /\ ingredientGrams (mkState Scenario.loaf r') Scenario.water == 150.
Proof.
  assert (H1 : ~ Spec.standard (recipe (initialState Scenario.loaf)))
    by (unfold Spec.standard; simpl; discriminate).
  assert (H2 : 0 < Spec.sumOfPercentages
                     (ingredients (editedRecipe (initialState Scenario.loaf))))
    by reflexivity.
  assert (H3 : 0 <= 334) by discriminate.
  destruct (X5_rescale_gives_shares (initialState Scenario.loaf) 334 H1 H2 H3)
    as (r' & Hrun & Hshare).
  split; [exact H1|]. split; [exact H2|]. split; [exact H3|].
  exists r'. split; [exact Hrun|].
  rewrite (Hshare Scenario.water). reflexivity.
Defined.

(** X6.  A dough-weight edit reads the percentages and the target, not
    the flour weight: after one edit has been stored, a second edit stores
    what it would have stored on the earlier state.  A dough weight of 0
    can therefore be left again. *)
Theorem X6_rescale_forgets_earlier_targets (s : State) (d1 d2 : Q) (r1 : Recipe) :
  handleTotalDoughWeightChange s d1 = Normal (SetEditedRecipe r1) ->
  handleTotalDoughWeightChange (mkState (recipe s) r1) d2
  = handleTotalDoughWeightChange s d2.
Proof.
  unfold handleTotalDoughWeightChange, isReadOnly. cbn [recipe editedRecipe].
  destruct (truthy (isStandard (recipe s))); [discriminate|]. cbv zeta.
  destruct (gt (totalPercentage (ingredients (editedRecipe s))) 0) eqn:Hgt;
    [|discriminate].
  intro H. injection H as <-.
  cbn [with_totalFlourGrams ingredients]. rewrite Hgt. reflexivity.
Qed.

Lemma X6_rescale_forgets_earlier_targets_witness :
  exists r1 : Recipe,
    handleTotalDoughWeightChange (initialState Scenario.loaf) 0
    = Normal (SetEditedRecipe r1)
    /\ totalDoughWeight (mkState Scenario.loaf r1) == 0
    /\ handleTotalDoughWeightChange (mkState Scenario.loaf r1) 835
       = handleTotalDoughWeightChange (initialState Scenario.loaf) 835.
Proof.
  eexists. split; [reflexivity|]. split; [reflexivity|].
  apply (X6_rescale_forgets_earlier_targets (initialState Scenario.loaf) 0 835).
  reflexivity.
Defined.

End RowEdits.


(* ================================================================== *)
(** * The editor over sequences of events *)
(* ================================================================== *)

Section EditorLoop.

Local Open Scope Q_scope.
Import Js RecipeView Editor.

Lemma inRange_lookup (index : Z) (r : Recipe) :
  inRange index r ->
  (0 <= index)%Z /\ exists ing : Ingredient, ingredients r !! Z.to_nat index = Some ing.
Proof.
  unfold inRange. intro H. split; [lia|].
  apply lookup_lt_is_Some_2. lia.
Qed.

(** Every handler leaves the prop, the id and the flag alone. *)
Lemma dispatch_keeps_identity (s s' : State) (e : Event) :
  dispatch s e = Some s' ->
  recipe s' = recipe s
  /\ recipe_id (editedRecipe s') = recipe_id (editedRecipe s)
  /\ isStandard (editedRecipe s') = isStandard (editedRecipe s).
Proof.
  unfold dispatch.
  destruct e as [name value|value|index edit| |index]; cbn [handle].
  - unfold handleChange. destruct (isReadOnly s); cbn [commit].
    + intros [= <-]. repeat split.
    + intros [= <-]. destruct name; repeat split.
  - unfold handleTotalDoughWeightChange. destruct (isReadOnly s); cbn [commit].
    + intros [= <-]. repeat split.
    + cbv zeta. destruct (gt _ 0); cbn [commit]; intros [= <-]; repeat split.
  - unfold handleIngredientChange. destruct (isReadOnly s); cbn [commit].
    + intros [= <-]. repeat split.
    + cbv zeta. unfold setIngredients.
      destruct (ingredients_of _); cbn [commit]; [|discriminate].
      intros [= <-]. repeat split.
  - unfold addIngredient. destruct (isReadOnly s); cbn [commit];
      intros [= <-]; repeat split.
  - unfold removeIngredient. destruct (isReadOnly s); cbn [commit];
      intros [= <-]; repeat split.
Qed.

(** X7.  An event the markup can produce never takes the editor out of
    the typed states, and keeps the recipe well formed: if no amount was
    negative none is afterwards, and if every ingredient had a catalog
    name every ingredient still has one. *)
Theorem X7_offered_events_keep_recipe_well_formed (s : State) (e : Event) :
  offered s e ->
  exists s' : State,
    dispatch s e = Some s'
    /\ (nonNegative (editedRecipe s) -> nonNegative (editedRecipe s'))
    /\ (catalogNames (editedRecipe s) -> catalogNames (editedRecipe s')).
Proof.
  intros [Hro Hoffered].
  assert (Hstd : ~ Spec.standard (recipe s)).
  { intro H. rewrite (isReadOnly_standard s H) in Hro. discriminate. }
  unfold dispatch, nonNegative, catalogNames.
  destruct e as [name value|value|index [p|n]| |index]; cbn [handle].
  - unfold handleChange. rewrite Hro. eexists. split; [reflexivity|].
    destruct name; split; intro H; exact H.
  - destruct (handleTotalDoughWeightChange s value) as [[|r'|]|] eqn:Hrun;
      try (unfold handleTotalDoughWeightChange in Hrun; rewrite Hro in Hrun;
           cbv zeta in Hrun; destruct (gt _ 0); discriminate).
    + eexists. split; [reflexivity|]. split; intro H; exact H.
    + eexists. split; [reflexivity|]. cbn [editedRecipe].
      pose proof (rescale_stored_flour s value r' Hrun) as [Hpos Hflour].
      assert (Hings : ingredients r' = ingredients (editedRecipe s)).
      { unfold handleTotalDoughWeightChange in Hrun. rewrite Hro in Hrun.
        cbv zeta in Hrun. destruct (gt _ 0); [|discriminate].
        injection Hrun as <-. reflexivity. }
      rewrite Hings. split; [|intro H; exact H].
      intros [_ Hall]. split; [|exact Hall].
      rewrite Hflour. apply Qmult_le_0_compat; [|discriminate].
      apply Qle_shift_div_l; [exact Hpos|].
      rewrite Qmult_0_l. apply Math_max_nonneg.
  - destruct (inRange_lookup index _ Hoffered) as [Hindex [ing Hlookup]].
    rewrite (handleIngredientChange_in_range s index _ ing Hstd Hindex Hlookup).
    eexists. split; [reflexivity|].
    cbn [commit editedRecipe with_ingredients ingredients totalFlourGrams].
    split.
    + intros [Hflour Hall]. split; [exact Hflour|].
      apply Forall_insert; [exact Hall|]. apply Math_max_nonneg.
    + intro Hall. apply Forall_insert; [exact Hall|].
      exact (Forall_lookup_1 _ _ _ _ Hall Hlookup).
  - destruct Hoffered as [Hrange Hname].
    destruct (inRange_lookup index _ Hrange) as [Hindex [ing Hlookup]].
    rewrite (handleIngredientChange_in_range s index _ ing Hstd Hindex Hlookup).
    eexists. split; [reflexivity|].
    cbn [commit editedRecipe with_ingredients ingredients totalFlourGrams].
    split.
    + intros [Hflour Hall]. split; [exact Hflour|].
      apply Forall_insert; [exact Hall|].
      exact (Forall_lookup_1 _ _ _ _ Hall Hlookup).
    + intro Hall. apply Forall_insert; [exact Hall | exact Hname].
  - unfold addIngredient. rewrite Hro. eexists. split; [reflexivity|].
    cbn [commit editedRecipe with_ingredients ingredients totalFlourGrams].
    split.
    + intros [Hflour Hall]. split; [exact Hflour|].
      apply Forall_app. split; [exact Hall|].
      constructor; [apply Qle_refl | constructor].
    + intro Hall. apply Forall_app. split; [exact Hall|].
      constructor; [simpl; tauto | constructor].
  - destruct (inRange_lookup index _ Hoffered) as [Hindex _].
    rewrite (removeIngredient_in_range s index Hstd Hindex).
    eexists. split; [reflexivity|].
    cbn [commit editedRecipe with_ingredients ingredients totalFlourGrams].
    split.
    + intros [Hflour Hall]. split; [exact Hflour|]. apply Forall_delete. exact Hall.
    + intro Hall. apply Forall_delete. exact Hall.
Qed.

Lemma X7_offered_events_keep_recipe_well_formed_witness :
  offered (useEffect_recipe Scenario.loaf) (IngredientChange 2 (EditPercentage (-4)))
  /\ exists s' : State,
       dispatch (useEffect_recipe Scenario.loaf) (IngredientChange 2 (EditPercentage (-4)))
       = Some s'
       /\ (nonNegative (editedRecipe (useEffect_recipe Scenario.loaf)) ->
           nonNegative (editedRecipe s')).
Proof.
  assert (H : offered (useEffect_recipe Scenario.loaf)
                      (IngredientChange 2 (EditPercentage (-4)))).
  { split; [reflexivity|]. unfold inRange. simpl. lia. }
  destruct (X7_offered_events_keep_recipe_well_formed _ _ H) as (s' & Hrun & Hkeep & _).
  split; [exact H|]. exists s'. split; [exact Hrun | exact Hkeep].
Defined.

(** X8.  On a standard recipe the editor is inert: whatever events reach
    the five handlers, in whatever order, the state after them is the
    state before them. *)
Theorem X8_standard_editor_is_inert (s : State) (events : list Event) :
  Spec.standard (recipe s) -> run s events = Some s.
Proof.
  intro Hstd. pose proof (isReadOnly_standard s Hstd) as Hro.
  induction events as [|e rest IH]; cbn [run]; [reflexivity|].
  assert (Hstep : dispatch s e = Some s).
  { unfold dispatch.
    destruct e; cbn [handle];
      unfold handleChange, handleTotalDoughWeightChange, handleIngredientChange,
        addIngredient, removeIngredient;
      rewrite Hro; reflexivity. }
  rewrite Hstep. exact IH.
Qed.

Lemma X8_standard_editor_is_inert_witness :
  Spec.standard (recipe (useEffect_recipe Scenario.sourdough))
  /\ run (useEffect_recipe Scenario.sourdough)
         [ Change NameField "Mine"; TotalDoughWeightChange 500;
           IngredientChange 9 (EditPercentage 50); AddIngredient; RemoveIngredient 0 ]
     = Some (useEffect_recipe Scenario.sourdough).
Proof.
  assert (H : Spec.standard (recipe (useEffect_recipe Scenario.sourdough)))
    by reflexivity.
  split; [exact H|].
  apply (X8_standard_editor_is_inert _ _ H).
Defined.

Lemma run_keeps_identity (events : list Event) (s s' : State) :
  run s events = Some s' ->
  recipe s' = recipe s
  /\ recipe_id (editedRecipe s') = recipe_id (editedRecipe s)
  /\ isStandard (editedRecipe s') = isStandard (editedRecipe s).
Proof.
  revert s. induction events as [|e rest IH]; intros s Hrun; cbn [run] in Hrun.
  - injection Hrun as <-. repeat split.
  - destruct (dispatch s e) as [s1|] eqn:Hstep; [|discriminate].
    destruct (dispatch_keeps_identity s s1 e Hstep) as (H1 & H2 & H3).
    destruct (IH s1 Hrun) as (H4 & H5 & H6).
    repeat split; congruence.
Qed.

Lemma useEffect_recipe_identity (r : Recipe) :
  recipe (useEffect_recipe r) = r
  /\ recipe_id (editedRecipe (useEffect_recipe r)) = recipe_id r
  /\ isStandard (editedRecipe (useEffect_recipe r)) = isStandard r.
Proof.
  unfold useEffect_recipe. cbv zeta. destruct (gt _ 0); repeat split.
Qed.

(** X9.  Whatever is done in the editor, the recipe it holds has the id
    and the flag of the recipe that was opened, and the opened recipe
    itself is not touched. *)
Theorem X9_editor_keeps_identity (r : Recipe) (events : list Event) (s' : State) :
  run (useEffect_recipe r) events = Some s' ->
  recipe s' = r
  /\ recipe_id (editedRecipe s') = recipe_id r
  /\ isStandard (editedRecipe s') = isStandard r.
Proof.
  intro Hrun.
  destruct (run_keeps_identity events _ _ Hrun) as (H1 & H2 & H3).
  destruct (useEffect_recipe_identity r) as (H4 & H5 & H6).
  repeat split; congruence.
Qed.

Lemma X9_editor_keeps_identity_witness :
  exists s' : State,
    run (useEffect_recipe Scenario.loaf)
        [ AddIngredient; IngredientChange 3 (EditName "Milk");
          IngredientChange 3 (EditPercentage 10); TotalDoughWeightChange 500;
          Change NameField "Milk Loaf"; RemoveIngredient 0 ]
    = Some s'
    /\ recipe s' = Scenario.loaf
    /\ recipe_id (editedRecipe s') = "user-1"
    /\ isStandard (editedRecipe s') = None.
Proof.
  eexists. split; [reflexivity|].
  apply (X9_editor_keeps_identity Scenario.loaf
           [ AddIngredient; IngredientChange 3 (EditName "Milk");
             IngredientChange 3 (EditPercentage 10); TotalDoughWeightChange 500;
             Change NameField "Milk Loaf"; RemoveIngredient 0 ]).
  reflexivity.
Defined.

Lemma ingredients_eqb_refl (l : list Ingredient) : ingredients_eqb l l = true.
Proof.
  induction l as [|ing rest IH]; simpl; [reflexivity|].
  unfold ingredient_eqb. rewrite String.eqb_refl, Qeq_bool_refl, IH. reflexivity.
Qed.

Lemma stringify_eqb_refl (r : Recipe) : stringify_eqb r r = true.
Proof.
  unfold stringify_eqb.
  rewrite !String.eqb_refl, Qeq_bool_refl, ingredients_eqb_refl.
  destruct (isStandard r) as [[|]|]; reflexivity.
Qed.

Lemma stringify_eqb_flour (r : Recipe) (x : Q) :
  stringify_eqb r (with_totalFlourGrams r x) = Qeq_bool (totalFlourGrams r) x.
Proof.
  unfold stringify_eqb. cbn [with_totalFlourGrams recipe_id recipe_name description
                             totalFlourGrams ingredients isStandard].
  rewrite !String.eqb_refl, ingredients_eqb_refl.
  destruct (isStandard r) as [[|]|]; simpl; rewrite ?andb_true_r; reflexivity.
Qed.

(** X10.  The first render shows no change.  Once the effect has scaled
    the copy, the comparison that enables the Save button reports a change
    exactly when the percentages sum to more than 0 and the stored flour
    weight is not the one the effect computes, 1000 divided by the sum and
    multiplied by 100: such a recipe counts as changed before the user has
    touched anything, and the flour weight is the only field in which the
    copy differs from the recipe. *)
Theorem X10_opening_marks_rescaled_recipe_changed (r : Recipe) :
  hasChanges (initialState r) = false
  /\ (hasChanges (useEffect_recipe r) = true
      <-> gt (totalPercentage (ingredients r)) 0 = true
          /\ ~ totalFlourGrams r == (1000 / totalPercentage (ingredients r)) * 100)
  /\ (hasChanges (useEffect_recipe r) = true
      <-> ~ totalFlourGrams (editedRecipe (useEffect_recipe r)) == totalFlourGrams r)
  /\ editedRecipe (useEffect_recipe r)
     = with_totalFlourGrams r (totalFlourGrams (editedRecipe (useEffect_recipe r))).
Proof.
  split.
  { unfold hasChanges, initialState. cbn [recipe editedRecipe].
    rewrite stringify_eqb_refl. reflexivity. }
  unfold hasChanges, useEffect_recipe.
  cbv zeta. cbn [recipe editedRecipe].
  destruct (gt (totalPercentage (ingredients r)) 0) eqn:Hgt.
  - rewrite stringify_eqb_flour, negb_true_iff.
    cbn [with_totalFlourGrams totalFlourGrams].
    split; [|split; [|reflexivity]].
    + split.
      * intro Hdiff. split; [reflexivity|]. apply Qeq_bool_neq. exact Hdiff.
      * intros [_ Hdiff].
        destruct (Qeq_bool (totalFlourGrams r)
                    (1000 / totalPercentage (ingredients r) * 100)) eqn:E;
          [|reflexivity].
        exfalso. apply Hdiff. apply Qeq_bool_iff. exact E.
    + split.
      * intros Hdiff Hsame. apply Qeq_bool_neq in Hdiff. apply Hdiff.
        symmetry. exact Hsame.
      * intro Hdiff.
        destruct (Qeq_bool (totalFlourGrams r)
                    (1000 / totalPercentage (ingredients r) * 100)) eqn:E;
          [|reflexivity].
        exfalso. apply Hdiff. apply Qeq_bool_iff in E. symmetry. exact E.
  - rewrite stringify_eqb_refl. cbn [negb].
    split; [|split].
    + split; [discriminate|]. intros [H _]. discriminate H.
    + split; [discriminate|]. intro H. exfalso. apply H. reflexivity.
    + destruct r. reflexivity.
Qed.

End EditorLoop.


(* ================================================================== *)
(** * Saving, deleting, importing and reloading *)
(* ================================================================== *)

Section Library.

Import Js App.

Lemma storageKey_inj (u u' : User) :
  storageKey u = storageKey u' -> user_id u = user_id u'.
Proof. unfold storageKey. simpl. intros [= H]. exact H. Qed.

Lemma nonStandard_In (l : list Recipe) (r : Recipe) :
  In r (nonStandard l) <-> In r l /\ ~ Spec.standard r.
Proof.
  unfold nonStandard, Spec.standard. rewrite List.filter_In.
  destruct (isStandard r) as [[|]|]; simpl; split; intros [H1 H2];
    (split; [exact H1|]); try reflexivity; try discriminate.
  exfalso. apply H2. reflexivity.
Qed.

Lemma load_other (storage : gmap string (list Recipe)) (l : list Recipe)
    (writer : option User) (other : User) :
  (forall u : User, writer = Some u -> user_id u <> user_id other) ->
  loadUserRecipes (saveUserRecipes storage l writer) other = loadUserRecipes storage other.
Proof.
  intro Hother. destruct writer as [u|]; [|reflexivity].
  unfold saveUserRecipes, loadUserRecipes.
  rewrite lookup_insert_ne; [reflexivity|].
  intro E. apply (Hother u eq_refl). apply storageKey_inj. exact E.
Qed.

(** A reply that arrives after the account has changed.  The baker
    clicks Import and signs out, a visitor signs in, and the reply comes:
    the screen shows the baker's list with the new recipe, which is written
    under the baker's key, while the visitor is signed in and has nothing
    persisted. *)
Lemma late_reply_after_account_change :
  let storage : gmap string (list Recipe) :=
    <[storageKey Scenario.baker := [Scenario.loaf]]> ∅ in
  let visitor := mkUser "7" "Visitor" "" "" in
  exists sys : System,
    reachable storage sys
    /\ user (app sys) = Some visitor
    /\ map recipe_id (nonStandard (recipes (app sys))) = ["user-1"; "user-1678886400000"]
    /\ map recipe_id (loadUserRecipes (localStorage (app sys)) Scenario.baker)
       = ["user-1"; "user-1678886400000"]
    /\ loadUserRecipes (localStorage (app sys)) visitor = []
    /\ ~ synced (app sys).
Proof.
  intros storage visitor.
  set (importing := navigate (handleCredentialResponse (initial storage) Scenario.baker)
                             None ViewImporter).
  set (changed := handleCredentialResponse (handleLogout importing) visitor).
  destruct (handleImportSuccessAfter importing changed Scenario.imported 1678886400000)
    as [st'|e] eqn:Hreply; [|discriminate Hreply].
  exists (mkSystem st' []).
  injection Hreply as <-.
  split.
  { eapply reachable_step.
    - eapply reachable_step.
      + eapply reachable_step.
        * eapply reachable_step.
          -- eapply reachable_step.
             ++ eapply reachable_step; [apply reachable_start|].
                apply (step_sign_in (start storage) Scenario.baker).
             ++ apply (step_importer (mkSystem _ [])).
          -- apply (step_import_click (mkSystem importing [])). reflexivity.
        * apply (step_sign_out (mkSystem importing [importing])).
      + apply (step_sign_in (mkSystem (handleLogout importing) [importing]) visitor).
    - apply (step_import_reply (mkSystem changed [importing]) [] [] importing
               Scenario.imported 1678886400000); reflexivity. }
  split; [reflexivity|]. split; [reflexivity|]. split; [reflexivity|].
  split; [reflexivity|].
  unfold synced. cbn [app]. discriminate.
Qed.



(** X12.  A step changes what is persisted for a user only when that
    user is signed in before the step or was signed in when an import
    still awaiting its reply was started: the list read back for a user
    whose id differs from those is the same after the step.  With nobody
    signed in, and no pending import started by a signed-in user, the
    store is not written at all. *)
Theorem X12_other_users_are_untouched (sys sys' : System) (other : User) :
  step sys sys' ->
  ((forall u : User, user (app sys) = Some u -> user_id u <> user_id other) ->
   (forall (captured : State) (u : User),
       In captured (pending sys) -> user captured = Some u ->
       user_id u <> user_id other) ->
   loadUserRecipes (localStorage (app sys')) other
   = loadUserRecipes (localStorage (app sys)) other)
  /\ (user (app sys) = None ->
      (forall captured : State, In captured (pending sys) -> user captured = None) ->
      localStorage (app sys') = localStorage (app sys)).
Proof.
  intro Hstep.
  destruct Hstep as [sys u|sys|sys r|sys|sys|sys r st' H|sys r c st' H|sys _
                    |sys before after captured d now st' Hpending H
                    |sys before after captured _];
    cbn [app]; try (split; reflexivity).
  - apply handleSave_store in H. destruct H as (_ & -> & _). split.
    + intros Hother _. apply load_other. exact Hother.
    + intros -> _. reflexivity.
  - apply handleDelete_store in H. destruct H as [->|(_ & _ & ->)];
      [split; reflexivity|]. split.
    + intros Hother _. apply load_other. exact Hother.
    + intros -> _. reflexivity.
  - apply handleImportSuccessAfter_store in H. destruct H as (_ & -> & _).
    assert (Hin : In captured (pending sys)) by (rewrite Hpending; apply in_elt).
    split.
    + intros _ Hother. apply load_other. intros u Hu. exact (Hother captured u Hin Hu).
    + intros _ Hnone. rewrite (Hnone captured Hin). reflexivity.
Qed.

Lemma X12_other_users_are_untouched_witness :
  let importing := navigate Scenario.session None ViewImporter in
  let visitor := mkUser "7" "Visitor" "" "" in
  exists st' : State,
    step (mkSystem (handleLogout importing) [importing]) (mkSystem st' [])
    /\ user st' = None
    /\ map recipe_id (loadUserRecipes (localStorage st') Scenario.baker)
       = ["user-1"; "user-1678886400000"]
    /\ loadUserRecipes (localStorage st') visitor = [].
Proof.
  intros importing visitor.
  destruct (handleImportSuccessAfter importing (handleLogout importing)
              Scenario.imported 1678886400000) as [st'|e] eqn:Hreply;
    [|discriminate Hreply].
  exists st'.
  assert (H1 : step (mkSystem (handleLogout importing) [importing]) (mkSystem st' [])).
  { apply (step_import_reply (mkSystem (handleLogout importing) [importing]) [] []
             importing Scenario.imported 1678886400000); [reflexivity | exact Hreply]. }
  pose proof (proj1 (X12_other_users_are_untouched _ _ visitor H1)) as Hsame.
  cbn [app pending] in Hsame.
  split; [exact H1|].
  rewrite Hsame.
  - injection Hreply as <-. split; [reflexivity|]. split; reflexivity.
  - intros u Hu. discriminate Hu.
  - intros captured u [<-|[]] [= <-]. discriminate.
Defined.

(** X13.  A save by a signed-in user replaces every recipe that has the
    id of the saved one and touches no other: the ids on screen, their
    number and order are as before, so a recipe whose id is not on the
    list is not added.  The non-standard recipes of the new list are what
    is persisted for the user.  The selection, the view and the messages
    are left alone. *)
Theorem X13_save_replaces_by_id (st : State) (u : User) (updatedRecipe : Recipe) :
  user st = Some u ->
  exists st' : State,
    handleSaveRecipe st updatedRecipe = Normal st'
    /\ map recipe_id (recipes st') = map recipe_id (recipes st)
    /\ (forall (i : nat) (r : Recipe),
          recipes st !! i = Some r ->
          recipe_id r <> recipe_id updatedRecipe ->
          recipes st' !! i = Some r)
    /\ (forall (i : nat) (r : Recipe),
          recipes st !! i = Some r ->
          recipe_id r = recipe_id updatedRecipe ->
          recipes st' !! i = Some updatedRecipe)
    /\ loadUserRecipes (localStorage st') u = nonStandard (recipes st')
    /\ selectedRecipe st' = selectedRecipe st
    /\ view st' = view st
    /\ alerts st' = alerts st.
Proof.
  intro Hu. eexists. unfold handleSaveRecipe. rewrite Hu. cbv zeta.
  split; [reflexivity|].
  cbn [setStorage setRecipes recipes localStorage user selectedRecipe view alerts].
  rewrite Hu, load_saved.
  assert (Hlookup : forall (l : list Recipe) (i : nat),
             map (fun r => if String.eqb (recipe_id r) (recipe_id updatedRecipe)
                           then updatedRecipe else r) l !! i
             = option_map (fun r => if String.eqb (recipe_id r) (recipe_id updatedRecipe)
                                    then updatedRecipe else r) (l !! i)).
  { induction l as [|x rest IH]; intros [|i]; simpl; try reflexivity. apply IH. }
  split.
  { induction (recipes st) as [|r rest IH]; simpl; [reflexivity|].
    rewrite IH. f_equal.
    destruct (String.eqb_spec (recipe_id r) (recipe_id updatedRecipe)) as [E|E];
      [symmetry; exact E | reflexivity]. }
  split.
  { intros i r Hi Hid. rewrite Hlookup, Hi. simpl.
    apply String.eqb_neq in Hid. rewrite Hid. reflexivity. }
  split.
  { intros i r Hi Hid. rewrite Hlookup, Hi. simpl.
    apply String.eqb_eq in Hid. rewrite Hid. reflexivity. }
  repeat split.
Qed.

Lemma X13_save_replaces_by_id_witness :
  user Scenario.session = Some Scenario.baker
  /\ exists st' : State,
       handleSaveRecipe Scenario.session (with_totalFlourGrams Scenario.loaf 500)
       = Normal st'
       /\ map recipe_id (recipes st') = ["std-1"; "std-2"; "std-3"; "std-4"; "user-1"]
       /\ loadUserRecipes (localStorage st') Scenario.baker
          = [with_totalFlourGrams Scenario.loaf 500].
Proof.
  split; [reflexivity|].
  destruct (X13_save_replaces_by_id Scenario.session Scenario.baker
              (with_totalFlourGrams Scenario.loaf 500) eq_refl)
    as (st' & Hrun & Hids & _ & _ & Hstored & _).
  exists st'. split; [exact Hrun|]. split; [exact Hids|].
  rewrite Hstored. injection Hrun as <-. reflexivity.
Defined.

(** X14.  A deletion by a signed-in user leaves on screen exactly the
    recipes whose id differs from the one given, and persists for the user
    exactly those of them that are not standard; it then shows the library
    with nothing selected. *)
Theorem X14_delete_removes_by_id (st : State) (u : User) (recipeId : string) :
  user st = Some u ->
  exists st' : State,
    handleDeleteRecipe st recipeId = Normal st'
    /\ (forall r : Recipe,
          In r (recipes st') <-> In r (recipes st) /\ recipe_id r <> recipeId)
    /\ (forall r : Recipe,
          In r (loadUserRecipes (localStorage st') u)
          <-> In r (recipes st) /\ recipe_id r <> recipeId /\ ~ Spec.standard r)
    /\ view st' = ViewLibrary
    /\ selectedRecipe st' = None.
Proof.
  intro Hu. eexists. unfold handleDeleteRecipe. rewrite Hu. cbv zeta.
  split; [reflexivity|].
  cbn [handleBackToLibrary navigate setStorage setRecipes recipes localStorage user
       selectedRecipe view].
  rewrite Hu, load_saved.
  assert (Hkept : forall r : Recipe,
             In r (List.filter (fun r0 => negb (String.eqb (recipe_id r0) recipeId))
                     (recipes st))
             <-> In r (recipes st) /\ recipe_id r <> recipeId).
  { intro r. rewrite List.filter_In, negb_true_iff, String.eqb_neq. reflexivity. }
  split; [exact Hkept|].
  split; [|split; reflexivity].
  intro r. rewrite nonStandard_In, Hkept. tauto.
Qed.

Lemma X14_delete_removes_by_id_witness :
  user Scenario.session = Some Scenario.baker
  /\ exists st' : State,
       handleDeleteRecipe Scenario.session "user-1" = Normal st'
       /\ recipes st' = standardRecipes
       /\ ~ In Scenario.loaf (loadUserRecipes (localStorage st') Scenario.baker).
Proof.
  split; [reflexivity|].
  destruct (X14_delete_removes_by_id Scenario.session Scenario.baker "user-1" eq_refl)
    as (st' & Hrun & _ & Hstored & _).
  exists st'. split; [exact Hrun|]. split; [injection Hrun as <-; reflexivity|].
  intro Hin. apply Hstored in Hin. destruct Hin as (_ & Hid & _).
  apply Hid. reflexivity.
Defined.



(** X16.  Signing out shows the standard recipes alone and leaves the
    store as it is; when the same user signs in again the list is the
    standard recipes followed by the user's recipes as they were on
    screen, in their order: what was persisted is what comes back. *)
Theorem X16_user_recipes_survive_sign_out (st : State) (u : User) :
  user st = Some u ->
  synced st ->
  recipes (handleLogout st) = standardRecipes
  /\ user (handleLogout st) = None
  /\ localStorage (handleLogout st) = localStorage st
  /\ recipes (handleCredentialResponse (handleLogout st) u)
     = standardRecipes ++ nonStandard (recipes st).
Proof.
  intros Hu Hsynced. unfold synced in Hsynced. rewrite Hu in Hsynced.
  unfold handleCredentialResponse, handleLogout, useEffect_user.
  cbn [setUser setRecipes user recipes localStorage].
  rewrite Hsynced. repeat split.
Qed.

Lemma X16_user_recipes_survive_sign_out_witness :
  user Scenario.session = Some Scenario.baker
  /\ synced Scenario.session
  /\ recipes (handleCredentialResponse (handleLogout Scenario.session) Scenario.baker)
     = standardRecipes ++ [Scenario.loaf].
Proof.
  assert (H1 : user Scenario.session = Some Scenario.baker) by reflexivity.
  assert (H2 : synced Scenario.session) by reflexivity.
  split; [exact H1|]. split; [exact H2|].
  exact (proj2 (proj2 (proj2 (X16_user_recipes_survive_sign_out _ _ H1 H2)))).
Defined.

End Library.


(* ================================================================== *)
(** * The summary shown in the recipe list *)
(* ================================================================== *)

Section ListItem.

Local Open Scope Q_scope.
Import Js RecipeListItem.

(** Closes a goal that compares the category of one catalog entry with
    membership of its name in a short list of names. *)
Ltac settle_entry :=
  simpl; split;
  (let H := fresh "H" in
   intro H;
   first [ reflexivity | discriminate | tauto
         | repeat (destruct H as [H|H]; [discriminate|]); destruct H ]).

(** The lookup in [ingredientInfoMap], entry by entry. *)
Ltac through_catalog :=
  unfold hasCategory, ingredientInfoMap, ALL_INGREDIENTS;
  cbn [fold_left info_name];
  repeat (rewrite lookup_insert;
          let E := fresh "E" in
          case_decide as E; [rewrite <- E; settle_entry|]);
  rewrite lookup_empty.

Lemma liquid_names (ing : Ingredient) :
  hasCategory Liquid ing = true
  <-> In (ing_name ing) ["Water"; "Milk"; "Buttermilk"].
Proof.
  through_catalog. split; [discriminate|].
  simpl. intros [H|[H|[H|[]]]]; congruence.
Qed.

Lemma flour_names (ing : Ingredient) :
  hasCategory Flour ing = true
  <-> In (ing_name ing) ["White Flour"; "Whole Wheat Flour"; "Other Flour"].
Proof.
  through_catalog. split; [discriminate|].
  simpl. intros [H|[H|[H|[]]]]; congruence.
Qed.

Lemma liquid_test (ing : Ingredient) :
  hasCategory Liquid ing
  = existsb (String.eqb (ing_name ing)) ["Water"; "Milk"; "Buttermilk"].
Proof.
  apply Bool.eq_iff_eq_true. rewrite liquid_names, existsb_exists.
  split.
  - intro Hin. exists (ing_name ing). split; [exact Hin | apply String.eqb_refl].
  - intros (x & Hin & Heq). apply String.eqb_eq in Heq. rewrite Heq. exact Hin.
Qed.

Lemma sum_filter_bounds (keep : Ingredient -> bool) (l : list Ingredient) :
  Forall (fun ing => 0 <= percentage ing) l ->
  0 <= Spec.sumOfPercentages (List.filter keep l)
  /\ Spec.sumOfPercentages (List.filter keep l) <= Spec.sumOfPercentages l.
Proof.
  induction 1 as [|ing rest Hing _ [IH0 IH1]]; simpl.
  - split; apply Qle_refl.
  - destruct (keep ing); simpl.
    + split.
      * rewrite <- (Qplus_0_r 0). apply Qplus_le_compat; assumption.
      * apply Qplus_le_compat; [apply Qle_refl | exact IH1].
    + split; [exact IH0|].
      rewrite <- (Qplus_0_l (Spec.sumOfPercentages (List.filter keep rest))).
      apply Qplus_le_compat; assumption.
Qed.

(** X17.  The hydration shown in the list is the sum of the percentages
    of the ingredients named Water, Milk or Buttermilk; an ingredient of
    any other name, in the catalog or not, adds nothing, and neither does
    the flour weight.  With no negative percentage it lies between 0 and
    the sum of all percentages. *)
Theorem X17_hydration_is_the_sum_of_liquids (r : Recipe) :
  hydration r
  == Spec.sumOfPercentages
       (List.filter
          (fun ing => existsb (String.eqb (ing_name ing)) ["Water"; "Milk"; "Buttermilk"])
          (ingredients r))
  /\ (Forall (fun ing => 0 <= percentage ing) (ingredients r) ->
      0 <= hydration r /\ hydration r <= Spec.sumOfPercentages (ingredients r)).
Proof.
  assert (Hsum : hydration r
                 == Spec.sumOfPercentages
                      (List.filter (hasCategory Liquid) (ingredients r))).
  { unfold hydration. rewrite reduce_percentages. ring. }
  split.
  - rewrite Hsum. rewrite (List.filter_ext _ _ liquid_test). reflexivity.
  - intro Hall. rewrite Hsum. apply sum_filter_bounds. exact Hall.
Qed.

Lemma X17_hydration_is_the_sum_of_liquids_witness :
  Forall (fun ing => 0 <= percentage ing) (ingredients Scenario.sourdough)
  /\ hydration Scenario.sourdough == 75
  /\ hydration Scenario.sourdough <= Spec.sumOfPercentages (ingredients Scenario.sourdough).
Proof.
  assert (H : Forall (fun ing => 0 <= percentage ing) (ingredients Scenario.sourdough)).
  { repeat constructor; discriminate. }
  split; [exact H|]. split; [reflexivity|].
  exact (proj2 (proj2 (X17_hydration_is_the_sum_of_liquids Scenario.sourdough) H)).
Defined.

Lemma flourTypes_of_flours (x : Ingredient) (rest : list Ingredient) :
  hasCategory Flour x = true ->
  exists (c : Ascii.ascii) (s : string),
    String.concat " / " (map (fun i => replace " Flour" "" (ing_name i)) (x :: rest))
    = String c s
    /\ String c s <> "N/A".
Proof.
  intro Hx. apply flour_names in Hx. cbn [map].
  destruct (map (fun i => replace " Flour" "" (ing_name i)) rest) as [|y more];
    simpl in Hx; destruct Hx as [E|[E|[E|[]]]]; rewrite <- E;
    eexists; eexists; (split; [reflexivity | discriminate]).
Qed.

(** X18.  The flour summary of a list item reads N/A exactly when no
    ingredient of the recipe is named White Flour, Whole Wheat Flour or
    Other Flour; otherwise it names the flours. *)
Theorem X18_flour_label_is_NA_without_flour (r : Recipe) :
  flourLabel r = "N/A"
  <-> Forall (fun ing =>
                ~ In (ing_name ing) ["White Flour"; "Whole Wheat Flour"; "Other Flour"])
             (ingredients r).
Proof.
  unfold flourLabel, flourTypes.
  destruct (List.filter (hasCategory Flour) (ingredients r)) as [|x rest] eqn:Hfilter.
  - simpl. split; [intros _|reflexivity].
    apply List.Forall_forall. intros ing Hin Hname.
    apply flour_names in Hname.
    assert (Hkept : In ing (List.filter (hasCategory Flour) (ingredients r)))
      by (apply List.filter_In; split; assumption).
    rewrite Hfilter in Hkept. exact Hkept.
  - assert (Hx : In x (List.filter (hasCategory Flour) (ingredients r)))
      by (rewrite Hfilter; left; reflexivity).
    apply List.filter_In in Hx. destruct Hx as [Hin Hflour].
    destruct (flourTypes_of_flours x rest Hflour) as (c & s & -> & Hc).
    cbn [String.eqb]. split.
    + intro Hlabel. exfalso. exact (Hc Hlabel).
    + intro Hall. exfalso.
      rewrite List.Forall_forall in Hall. apply (Hall x Hin).
      apply flour_names. exact Hflour.
Qed.

(** The summaries of the first standard recipe. *)
Lemma sourdough_summary :
  flourLabel Scenario.sourdough = "White / Whole Wheat"
  /\ flourLabel Scenario.blank = "N/A".
Proof. split; reflexivity. Qed.

End ListItem.


(* ================================================================== *)
(** * Nutrition requests and imports *)
(* ================================================================== *)

Section Requests.

Import Js GeminiService.

Lemma typeof_number_inv (v : option Json) :
  typeof_is_not_number v = false <-> exists q : Q, v = Some (JNumber q).
Proof.
  split.
  - destruct v as [[]|]; try discriminate. intros _. eexists. reflexivity.
  - intros [q ->]. reflexivity.
Qed.

Lemma validateNutrition_object (members : list (string * Json)) :
  validateNutrition (JObject members)
  = if typeof_is_not_number (member "calories" members) then Throw invalid_nutrition_format
    else if typeof_is_not_number (member "proteinGrams" members)
    then Throw invalid_nutrition_format
    else if typeof_is_not_number (member "fatGrams" members)
    then Throw invalid_nutrition_format
    else if typeof_is_not_number (member "carbohydrateGrams" members)
    then Throw invalid_nutrition_format
    else if typeof_is_not_number (member "fiberGrams" members)
    then Throw invalid_nutrition_format
    else Normal (JObject members).
Proof. reflexivity. Qed.

(** Both requests end with the value or with one of their own errors,
    never with a built-in exception. *)
Lemma getNutritionalInformation_ends (apiKeyConfigured : bool) (response : Response) :
  (exists info : Json,
      getNutritionalInformation apiKeyConfigured response = Normal info
      /\ apiKeyConfigured = true /\ response = ResponseText (Some info)
      /\ validateNutrition info = Normal info)
  \/ getNutritionalInformation apiKeyConfigured response = Throw api_key_missing
  \/ getNutritionalInformation apiKeyConfigured response = Throw failed_to_calculate.
Proof.
  unfold getNutritionalInformation.
  destruct apiKeyConfigured; cbn [negb]; [|right; left; reflexivity].
  destruct response as [e|[j|]]; cbn [try_catch]; try (right; right; reflexivity).
  destruct (validateNutrition j) as [j'|e] eqn:E; [|right; right; reflexivity].
  assert (j' = j) as ->.
  { destruct j; try discriminate. rewrite validateNutrition_object in E.
    repeat (destruct (typeof_is_not_number _); [discriminate|]).
    injection E as <-. reflexivity. }
  left. exists j. repeat split. exact E.
Qed.

Lemma parseRecipeFromText_ends (apiKeyConfigured : bool) (response : Response) :
  (exists parsed : Json,
      parseRecipeFromText apiKeyConfigured response = Normal parsed
      /\ apiKeyConfigured = true /\ response = ResponseText (Some parsed))
  \/ parseRecipeFromText apiKeyConfigured response = Throw api_key_missing
  \/ parseRecipeFromText apiKeyConfigured response = Throw failed_to_parse.
Proof.
  unfold parseRecipeFromText.
  destruct apiKeyConfigured; cbn [negb]; [|right; left; reflexivity].
  destruct response as [e|[j|]]; cbn [try_catch]; try (right; right; reflexivity).
  destruct (validate j) as [j'|e] eqn:E; [|right; right; reflexivity].
  rewrite (validate_returns_input j j' E).
  left. exists j. repeat split.
Qed.

(** X19.  A nutrition estimate is accepted exactly when it is an object
    whose calories, proteinGrams, fatGrams, carbohydrateGrams and
    fiberGrams are all numbers, of any sign, and it is then returned as it
    came; any other reply ends in the one error meant for the user. *)
Theorem X19_nutrition_output_check (j : Json) :
  (getNutritionalInformation true (ResponseText (Some j)) = Normal j
   <-> exists members : list (string * Json),
         j = JObject members
         /\ forall key : string,
              In key ["calories"; "proteinGrams"; "fatGrams";
                      "carbohydrateGrams"; "fiberGrams"] ->
              exists q : Q, member key members = Some (JNumber q))
  /\ (getNutritionalInformation true (ResponseText (Some j)) = Normal j
      \/ getNutritionalInformation true (ResponseText (Some j)) = Throw failed_to_calculate).
Proof.
  split.
  - unfold getNutritionalInformation. cbn [negb try_catch]. split.
    + intro H. destruct j; try discriminate. exists members. split; [reflexivity|].
      rewrite validateNutrition_object in H.
      destruct (typeof_is_not_number (member "calories" members)) eqn:E1;
        [discriminate|].
      destruct (typeof_is_not_number (member "proteinGrams" members)) eqn:E2;
        [discriminate|].
      destruct (typeof_is_not_number (member "fatGrams" members)) eqn:E3;
        [discriminate|].
      destruct (typeof_is_not_number (member "carbohydrateGrams" members)) eqn:E4;
        [discriminate|].
      destruct (typeof_is_not_number (member "fiberGrams" members)) eqn:E5;
        [discriminate|].
      intros key Hkey. simpl in Hkey.
      destruct Hkey as [<-|[<-|[<-|[<-|[<-|[]]]]]]; apply typeof_number_inv; assumption.
    + intros (members & -> & Hkeys). rewrite validateNutrition_object.
      rewrite (proj2 (typeof_number_inv _) (Hkeys "calories" ltac:(simpl; tauto))).
      rewrite (proj2 (typeof_number_inv _) (Hkeys "proteinGrams" ltac:(simpl; tauto))).
      rewrite (proj2 (typeof_number_inv _) (Hkeys "fatGrams" ltac:(simpl; tauto))).
      rewrite (proj2 (typeof_number_inv _) (Hkeys "carbohydrateGrams" ltac:(simpl; tauto))).
      rewrite (proj2 (typeof_number_inv _) (Hkeys "fiberGrams" ltac:(simpl; tauto))).
      reflexivity.
  - destruct (getNutritionalInformation_ends true (ResponseText (Some j)))
      as [(info & H & _ & [= <-] & _)|[H|H]].
    + left. exact H.
    + exfalso. unfold getNutritionalInformation in H. cbn [negb try_catch] in H.
      destruct (validateNutrition j); discriminate H.
    + right. exact H.
Qed.

(** X20.  When a nutrition request has settled the panel is no longer
    loading and shows one thing: either the estimate, which then is the
    service's reply with its five numeric fields and comes with no error,
    or one of the two messages for the user and no estimate.  Nothing of
    an earlier request is left on screen. *)
Theorem X20_nutrition_panel_shows_result_or_error
    (p : NutritionPanel.State) (apiKeyConfigured : bool) (response : Response) :
  exists p' : NutritionPanel.State,
    NutritionPanel.handleCalculateNutrition p apiKeyConfigured response = Some p'
    /\ NutritionPanel.isNutritionLoading p' = false
    /\ ((exists info : Json,
           NutritionPanel.nutrition p' = Some info
           /\ NutritionPanel.nutritionError p' = None
           /\ response = ResponseText (Some info)
           /\ validateNutrition info = Normal info)
        \/ (NutritionPanel.nutrition p' = None
            /\ (NutritionPanel.nutritionError p'
                = Some "AI features are disabled. API key is missing."
                \/ NutritionPanel.nutritionError p'
                   = Some "Failed to calculate nutrition. The AI model could not process the recipe or an API error occurred."))).
Proof.
  unfold NutritionPanel.handleCalculateNutrition.
  destruct (getNutritionalInformation_ends apiKeyConfigured response)
    as [(info & -> & _ & Hresponse & Hvalid)|[-> | ->]];
    cbn [NutritionPanel.settled api_key_missing failed_to_calculate];
    eexists; (split; [reflexivity|]); (split; [reflexivity|]).
  - left. exists info. repeat split; assumption.
  - right. split; [reflexivity|]. left. reflexivity.
  - right. split; [reflexivity|]. right. reflexivity.
Qed.

Lemma parseRecipeFromText_accepts (apiKeyConfigured : bool) (response : Response)
    (parsed : Json) :
  parseRecipeFromText apiKeyConfigured response = Normal parsed
  <-> apiKeyConfigured = true
      /\ response = ResponseText (Some parsed)
      /\ validate parsed = Normal parsed.
Proof.
  split.
  - intro H.
    destruct (parseRecipeFromText_ends apiKeyConfigured response)
      as [(j & Hj & Hkey & Hresponse)|[E | E]];
      [|rewrite E in H; discriminate H|rewrite E in H; discriminate H].
    rewrite Hj in H. injection H as ->.
    split; [exact Hkey|]. split; [exact Hresponse|].
    subst. unfold parseRecipeFromText in Hj. cbn [negb try_catch] in Hj.
    destruct (validate parsed) as [j'|e]; [exact Hj | discriminate Hj].
  - intros (-> & -> & Hvalid). unfold parseRecipeFromText. cbn [negb].
    rewrite Hvalid. reflexivity.
Qed.

(** X21.  One click on Import, for any function given as
    [onImportSuccess].  With nothing but blanks in the box the importer
    asks for text, sends nothing and calls nothing.  The function is
    called exactly when an API key is configured and the reply passes the
    output check, and it is called with the reply as it came.  The
    importer ends up showing no error exactly when the function was called
    and returned normally.  When the function was not called, the error
    shown is one of three fixed messages.  Once a request has settled the
    importer is no longer loading and the text in the box is as it
    was. *)
Theorem X21_import_reaches_the_library_only_on_success
    (R : Type) (engineMessage : Exception -> string)
    (onImportSuccess : Json -> Completion R)
    (imp : RecipeImporter.State) (trimmed : string) (apiKeyConfigured : bool)
    (response : Response) :
  (trimmed = "" ->
   RecipeImporter.handleImport engineMessage onImportSuccess imp trimmed
     apiKeyConfigured response
   = (RecipeImporter.mkState (RecipeImporter.text imp) (RecipeImporter.isLoading imp)
        (Some "Please paste recipe text."), None))
  /\ (forall parsed : Json,
        snd (RecipeImporter.handleImport engineMessage onImportSuccess imp trimmed
               apiKeyConfigured response) = Some parsed
        <-> trimmed <> ""
            /\ apiKeyConfigured = true
            /\ response = ResponseText (Some parsed)
            /\ validate parsed = Normal parsed)
  /\ (RecipeImporter.error
        (fst (RecipeImporter.handleImport engineMessage onImportSuccess imp trimmed
                apiKeyConfigured response)) = None
      <-> exists parsed : Json,
            snd (RecipeImporter.handleImport engineMessage onImportSuccess imp trimmed
                   apiKeyConfigured response) = Some parsed
            /\ fails (onImportSuccess parsed) = false)
  /\ (snd (RecipeImporter.handleImport engineMessage onImportSuccess imp trimmed
             apiKeyConfigured response) = None ->
      exists shown : string,
        RecipeImporter.error
          (fst (RecipeImporter.handleImport engineMessage onImportSuccess imp trimmed
                  apiKeyConfigured response)) = Some shown
        /\ (shown = "Please paste recipe text."
            \/ shown = "AI features are disabled. API key is missing."
            \/ Error shown = failed_to_parse))
  /\ (trimmed <> "" ->
      RecipeImporter.isLoading
        (fst (RecipeImporter.handleImport engineMessage onImportSuccess imp trimmed
                apiKeyConfigured response)) = false
      /\ RecipeImporter.text
           (fst (RecipeImporter.handleImport engineMessage onImportSuccess imp trimmed
                   apiKeyConfigured response)) = RecipeImporter.text imp).
Proof.
  unfold RecipeImporter.handleImport.
  split; [intros ->; reflexivity|].
  destruct (String.eqb_spec trimmed "") as [Hblank|Hblank].
  { cbn [fst snd RecipeImporter.error].
    split; [|split; [|split]].
    - intro parsed. split; [discriminate|]. intros (Hne & _). contradiction.
    - split; [discriminate|]. intros (parsed & H & _). discriminate H.
    - intros _. eexists. split; [reflexivity|]. left. reflexivity.
    - intro Hne. contradiction. }
  cbv zeta.
  destruct (parseRecipeFromText apiKeyConfigured response) as [newRecipe|err] eqn:Hparse.
  - apply parseRecipeFromText_accepts in Hparse.
    destruct Hparse as (Hkey & Hresponse & Hvalid).
    cbn [fst snd].
    split; [|split; [|split]].
    + intro parsed. split.
      * intros [= <-]. split; [exact Hblank|]. split; [exact Hkey|].
        split; [exact Hresponse | exact Hvalid].
      * intros (_ & _ & Hsame & _). rewrite Hresponse in Hsame.
        injection Hsame as ->. reflexivity.
    + unfold RecipeImporter.afterAwait, RecipeImporter.beforeAwait.
      destruct (onImportSuccess newRecipe) as [value|e] eqn:Hcall;
        cbn [RecipeImporter.error]; split.
      * intros _. exists newRecipe. rewrite Hcall. split; reflexivity.
      * intros _. reflexivity.
      * discriminate.
      * intros (parsed & [= <-] & Hfails). rewrite Hcall in Hfails. discriminate Hfails.
    + discriminate.
    + intros _. unfold RecipeImporter.afterAwait, RecipeImporter.beforeAwait.
      destruct (onImportSuccess newRecipe); split; reflexivity.
  - cbn [fst snd RecipeImporter.afterAwait RecipeImporter.beforeAwait
         RecipeImporter.error RecipeImporter.isLoading RecipeImporter.text].
    split; [|split; [|split]].
    + intro parsed. split; [discriminate|].
      intros (_ & Hkey & Hresponse & Hvalid).
      assert (H : parseRecipeFromText apiKeyConfigured response = Normal parsed).
      { apply parseRecipeFromText_accepts. split; [exact Hkey|].
        split; [exact Hresponse | exact Hvalid]. }
      rewrite Hparse in H. discriminate H.
    + split; [discriminate|]. intros (parsed & H & _). discriminate H.
    + intros _.
      destruct (parseRecipeFromText_ends apiKeyConfigured response)
        as [(j & Hj & _)|[E | E]]; rewrite Hparse in *.
      * discriminate Hj.
      * injection E as ->. eexists. split; [reflexivity|]. right. left. reflexivity.
      * injection E as ->. eexists. split; [reflexivity|]. right. right. reflexivity.
    + intros _. split; reflexivity.
Qed.

End Requests.


(* ================================================================== *)
(** * From the editor to the library and back *)
(* ================================================================== *)

Section SaveAndReopen.

Local Open Scope Q_scope.
Import Js RecipeView.

(** X22.  Scaling on opening is idempotent: the copy the editor makes of
    a recipe, opened in its turn, is copied as it is and counts as
    unchanged.  A recipe saved from the editor without further edits
    therefore reopens exactly as saved. *)
Theorem X22_saved_copy_reopens_unchanged (r : Recipe) :
  editedRecipe (useEffect_recipe (editedRecipe (useEffect_recipe r)))
  = editedRecipe (useEffect_recipe r)
  /\ hasChanges (useEffect_recipe (editedRecipe (useEffect_recipe r))) = false.
Proof.
  assert (Hsame : editedRecipe (useEffect_recipe (editedRecipe (useEffect_recipe r)))
                  = editedRecipe (useEffect_recipe r)).
  { unfold useEffect_recipe. cbv zeta. cbn [editedRecipe].
    destruct (gt (totalPercentage (ingredients r)) 0) eqn:Hgt.
    - cbn [with_totalFlourGrams ingredients]. rewrite Hgt. reflexivity.
    - rewrite Hgt. reflexivity. }
  split; [exact Hsame|].
  unfold hasChanges. rewrite Hsame.
  change (recipe (useEffect_recipe (editedRecipe (useEffect_recipe r))))
    with (editedRecipe (useEffect_recipe r)).
  rewrite stringify_eqb_refl. reflexivity.
Qed.

(** X23.  From opening to saving.  A signed-in user opens a recipe of the
    list, the editor goes through any events, and Save is pressed: on the
    list, every recipe that has the id of the opened one is replaced by
    the edited copy and every other recipe stays where it is, so the
    opened recipe is gone unless the copy equals it, and the ids on
    screen, their number and order are as before.  The message Recipe
    saved! is shown.  The non-standard recipes of the new list are what is
    persisted for the user, and when the opened recipe is not standard the
    edited copy is among them. *)
Theorem X23_what_is_edited_is_what_is_saved
    (st : App.State) (u : User) (r : Recipe) (events : list Editor.Event) (s' : State) :
  App.user st = Some u ->
  In r (App.recipes st) ->
  Editor.run (useEffect_recipe r) events = Some s' ->
  exists st' : App.State,
    App.handleSave st (editedRecipe s') = Normal st'
    /\ App.recipes st'
       = map (fun r0 : Recipe =>
                if String.eqb (recipe_id r0) (recipe_id r) then editedRecipe s' else r0)
             (App.recipes st)
    /\ map recipe_id (App.recipes st') = map recipe_id (App.recipes st)
    /\ (In r (App.recipes st') -> r = editedRecipe s')
    /\ In (editedRecipe s') (App.recipes st')
    /\ (forall r0 : Recipe,
          In r0 (App.recipes st) -> recipe_id r0 <> recipe_id r -> In r0 (App.recipes st'))
    /\ (forall r0 : Recipe,
          In r0 (App.recipes st') -> r0 = editedRecipe s' \/ In r0 (App.recipes st))
    /\ App.alerts st' = App.alerts st ++ ["Recipe saved!"]
    /\ App.loadUserRecipes (App.localStorage st') u = App.nonStandard (App.recipes st')
    /\ (~ Spec.standard r ->
        In (editedRecipe s') (App.loadUserRecipes (App.localStorage st') u)).
Proof.
  intros Hu Hin Hrun.
  destruct (run_keeps_identity events _ _ Hrun) as (_ & Hid & Hflag).
  destruct (useEffect_recipe_identity r) as (_ & Hid0 & Hflag0).
  rewrite Hid0 in Hid. rewrite Hflag0 in Hflag.
  eexists. unfold App.handleSave, App.handleSaveRecipe. rewrite Hu. cbv zeta.
  cbn [bind]. split; [reflexivity|].
  cbn [App.alert App.setStorage App.setRecipes App.recipes App.localStorage App.user
       App.alerts].
  rewrite Hu, load_saved, Hid.
  set (f := fun r0 : Recipe =>
              if String.eqb (recipe_id r0) (recipe_id r)
              then editedRecipe s' else r0).
  assert (Hnew : In (editedRecipe s') (map f (App.recipes st))).
  { apply in_map_iff. exists r. split; [|exact Hin].
    unfold f. rewrite String.eqb_refl. reflexivity. }
  split; [reflexivity|].
  split.
  { rewrite map_map. apply map_ext. intro r0. unfold f.
    destruct (String.eqb_spec (recipe_id r0) (recipe_id r)) as [E|_];
      [rewrite Hid, E|]; reflexivity. }
  split.
  { intro Hr. apply in_map_iff in Hr. destruct Hr as (x & Hx & _).
    unfold f in Hx. destruct (String.eqb_spec (recipe_id x) (recipe_id r)) as [_|Hne].
    - symmetry. exact Hx.
    - exfalso. apply Hne. rewrite Hx. reflexivity. }
  split; [exact Hnew|].
  split.
  { intros r0 Hin0 Hne. apply in_map_iff. exists r0. split; [|exact Hin0].
    unfold f. apply String.eqb_neq in Hne. rewrite Hne. reflexivity. }
  split.
  { intros r0 Hin0. apply in_map_iff in Hin0. destruct Hin0 as (x & Hx & Hinx).
    unfold f in Hx. destruct (String.eqb _ _); subst r0; [left; reflexivity | right; exact Hinx]. }
  split; [reflexivity|].
  split; [reflexivity|].
  intro Hstd. apply nonStandard_In. split; [exact Hnew|].
  unfold Spec.standard in *. rewrite Hflag. exact Hstd.
Qed.

Lemma X23_what_is_edited_is_what_is_saved_witness :
  App.user Scenario.session = Some Scenario.baker
  /\ In Scenario.loaf (App.recipes Scenario.session)
  /\ exists (s' : State) (st' : App.State),
       Editor.run (useEffect_recipe Scenario.loaf)
                  [Editor.IngredientChange 1 (EditPercentage 80)] = Some s'
       /\ App.handleSave Scenario.session (editedRecipe s') = Normal st'
       /\ In (editedRecipe s') (App.loadUserRecipes (App.localStorage st') Scenario.baker).
Proof.
  assert (H1 : App.user Scenario.session = Some Scenario.baker) by reflexivity.
  assert (H2 : In Scenario.loaf (App.recipes Scenario.session))
    by (simpl; tauto).
  split; [exact H1|]. split; [exact H2|].
  eexists.
  destruct (X23_what_is_edited_is_what_is_saved Scenario.session Scenario.baker
              Scenario.loaf [Editor.IngredientChange 1 (EditPercentage 80)] _
              H1 H2 eq_refl)
    as (st' & Hrun & _ & _ & _ & _ & _ & _ & _ & _ & Hstored).
  exists st'. split; [reflexivity|]. split; [exact Hrun|].
  apply Hstored. unfold Spec.standard. simpl. discriminate.
Defined.

End SaveAndReopen.
